(** * SMS dispatch core: queue service, message logging service, dispatcher

    A shallow embedding of
      - app/services/sms_queue_service.py      (class SMSQueueService)
      - app/services/message_logging_service.py (class MessageLoggingService)
      - app/tasks/sms_tasks.py                 (process_sms_batch)
      - app/utils/phone_validator.py
      - the check constraints of the alembic migration sms_queue_enhancement_001
    followed by the properties of the specification, stated on that embedding.

    Conventions of the model.
      - A [datetime] is a number of microseconds since the epoch, as [Z];
        [timedelta(minutes=m)] is [m * 60_000_000].  The range limits of
        Python's datetime (year 9999) are outside the model.
      - [str] is [string]; [Optional[T]] is [option T]; a SQL NULL is [None].
      - A Python [float] or a Numeric column is an exact rational ([Q]); rounding
        and NaN are outside the model, zero-ness (truthiness) is inside it.
      - A table is the list of its rows in insertion order; a session-tracked
        ORM object is the row with its primary key, in step with the stored
        row when a method receives it: [commit] writes it back.
      - Exceptions are values of [exn]; a method is a function in the monad
        [M] of world-passing computations that may raise. *)

From Stdlib Require Import ZArith QArith Lia Ascii String.
From stdpp Require Import base gmap strings list sorting pretty.

Local Open Scope string_scope.
Local Open Scope Z_scope.

(** ** Python values, truthiness, exceptions *)

(** The scalar values that occur in provider responses, webhook payloads and
    settings. *)
Inductive PyVal :=
  | VNone
  | VInt (n : Z)
  | VStr (s : string).

(** Python's truth-value protocol ([if x:], [not x], [x or y]). *)
Class Truthy (A : Type) := truthy : A → bool.
Global Hint Mode Truthy ! : typeclass_instances.

Global Instance truthy_Z : Truthy Z := λ n, negb (n =? 0).
Global Instance truthy_Q : Truthy Q := λ x, negb (Qnum x =? 0).
Global Instance truthy_string : Truthy string := λ s,
  match s with EmptyString => false | String _ _ => true end.
Global Instance truthy_list {A} : Truthy (list A) := λ l,
  match l with [] => false | _ :: _ => true end.
Global Instance truthy_option {A} `{Truthy A} : Truthy (option A) := λ o,
  match o with None => false | Some a => truthy a end.
Global Instance truthy_PyVal : Truthy PyVal := λ v,
  match v with
  | VNone => false
  | VInt n => truthy n
  | VStr s => truthy s
  end.

(** [x in [s1, ..., sn]] on strings. *)
Definition str_in (x : string) (l : list string) : bool :=
  existsb (String.eqb x) l.

(** [str.lower()] on the ASCII range. *)
Definition ascii_lower (c : ascii) : ascii :=
  let n := N_of_ascii c in
  if ((65 <=? n) && (n <=? 90))%N then ascii_of_N (n + 32) else c.

Fixpoint lower (s : string) : string :=
  match s with
  | EmptyString => EmptyString
  | String c s' => String (ascii_lower c) (lower s')
  end.

(** [str(x)] inside an f-string for an optional string. *)
Definition str_of_opt (o : option string) : string :=
  match o with None => "None" | Some s => s end.

(** The exceptions of the modelled code.  [InvalidPhoneNumberError] is a
    subclass of [ValueError] in the source; the only handler that meets it
    names it. *)
Inductive exn :=
  | ValueError (msg : string)
  | InvalidPhoneNumberError (msg : string)
  | TypeError (msg : string)
  | AttributeError (msg : string)
  | UnboundLocalError (msg : string)
  | ZeroDivisionError (msg : string)
  | IntegrityError (constraint : string)
  | DataError (msg : string)
  | TwilioApiError (code : option string) (msg : string).

(** [str(e)] *)
Definition exn_str (e : exn) : string :=
  match e with
  | ValueError m | InvalidPhoneNumberError m | TypeError m
  | AttributeError m | UnboundLocalError m | ZeroDivisionError m
  | DataError m => m
  | IntegrityError c => "violates check constraint " +:+ c
  | TwilioApiError _ m => m
  end.

Inductive Result (A : Type) :=
  | Ok (a : A)
  | Raise (e : exn).
Arguments Ok {A} a.
Arguments Raise {A} e.

Definition is_ok {A} (r : Result A) : bool :=
  match r with Ok _ => true | Raise _ => false end.

(** ** Rows *)

Module Contact.
Record t := mk { id_contact : Z; numero_telephone : string }.
End Contact.

Module Campaign.
Record t := mk {
  id_campagne : Z;
  statut : string;
  mailing_lists : list Z   (* the id_liste of each related mailing list *)
}.
End Campaign.

Module SMSQueue.
Record t := mk {
  id : Z;
  campaign_id : option Z;
  contact_id : Z;
  message_content : string;
  priority : Z;
  status : string;
  attempts : Z;
  max_attempts : Z;
  scheduled_at : option Z;
  next_retry_at : option Z;
  last_attempt_at : option Z;
  processed_at : option Z;
  external_message_id : option string;
  error_message : option string;
  created_at : Z
}.

Definition set_status (v : string) (q : t) : t :=
  mk (id q) (campaign_id q) (contact_id q) (message_content q) (priority q)
     v (attempts q) (max_attempts q) (scheduled_at q) (next_retry_at q)
     (last_attempt_at q) (processed_at q) (external_message_id q)
     (error_message q) (created_at q).
Definition set_attempts (v : Z) (q : t) : t :=
  mk (id q) (campaign_id q) (contact_id q) (message_content q) (priority q)
     (status q) v (max_attempts q) (scheduled_at q) (next_retry_at q)
     (last_attempt_at q) (processed_at q) (external_message_id q)
     (error_message q) (created_at q).
Definition set_next_retry_at (v : option Z) (q : t) : t :=
  mk (id q) (campaign_id q) (contact_id q) (message_content q) (priority q)
     (status q) (attempts q) (max_attempts q) (scheduled_at q) v
     (last_attempt_at q) (processed_at q) (external_message_id q)
     (error_message q) (created_at q).
Definition set_last_attempt_at (v : option Z) (q : t) : t :=
  mk (id q) (campaign_id q) (contact_id q) (message_content q) (priority q)
     (status q) (attempts q) (max_attempts q) (scheduled_at q)
     (next_retry_at q) v (processed_at q) (external_message_id q)
     (error_message q) (created_at q).
Definition set_processed_at (v : option Z) (q : t) : t :=
  mk (id q) (campaign_id q) (contact_id q) (message_content q) (priority q)
     (status q) (attempts q) (max_attempts q) (scheduled_at q)
     (next_retry_at q) (last_attempt_at q) v (external_message_id q)
     (error_message q) (created_at q).
Definition set_external_message_id (v : option string) (q : t) : t :=
  mk (id q) (campaign_id q) (contact_id q) (message_content q) (priority q)
     (status q) (attempts q) (max_attempts q) (scheduled_at q)
     (next_retry_at q) (last_attempt_at q) (processed_at q) v
     (error_message q) (created_at q).
Definition set_error_message (v : option string) (q : t) : t :=
  mk (id q) (campaign_id q) (contact_id q) (message_content q) (priority q)
     (status q) (attempts q) (max_attempts q) (scheduled_at q)
     (next_retry_at q) (last_attempt_at q) (processed_at q)
     (external_message_id q) v (created_at q).
End SMSQueue.

Module Message.
Record t := mk {
  id_message : Z;
  contenu : string;
  date_envoi : Z;
  statut_livraison : string;
  identifiant_expediteur : string;
  external_message_id : option string;
  delivery_attempts : Z;
  id_liste : option Z;
  id_contact : Z;
  id_campagne : option Z;
  queue_item_id : option Z;
  final_status : option string;
  delivery_timestamp : option Z;
  error_message : option string;
  cost : option Q;
  updated_at : option Z
}.

Definition set_statut_livraison (v : string) (m : t) : t :=
  mk (id_message m) (contenu m) (date_envoi m) v (identifiant_expediteur m)
     (external_message_id m) (delivery_attempts m) (id_liste m) (id_contact m)
     (id_campagne m) (queue_item_id m) (final_status m) (delivery_timestamp m)
     (error_message m) (cost m) (updated_at m).
Definition set_external_message_id (v : option string) (m : t) : t :=
  mk (id_message m) (contenu m) (date_envoi m) (statut_livraison m)
     (identifiant_expediteur m) v (delivery_attempts m) (id_liste m)
     (id_contact m) (id_campagne m) (queue_item_id m) (final_status m)
     (delivery_timestamp m) (error_message m) (cost m) (updated_at m).
Definition set_delivery_attempts (v : Z) (m : t) : t :=
  mk (id_message m) (contenu m) (date_envoi m) (statut_livraison m)
     (identifiant_expediteur m) (external_message_id m) v (id_liste m)
     (id_contact m) (id_campagne m) (queue_item_id m) (final_status m)
     (delivery_timestamp m) (error_message m) (cost m) (updated_at m).
Definition set_final_status (v : option string) (m : t) : t :=
  mk (id_message m) (contenu m) (date_envoi m) (statut_livraison m)
     (identifiant_expediteur m) (external_message_id m) (delivery_attempts m)
     (id_liste m) (id_contact m) (id_campagne m) (queue_item_id m) v
     (delivery_timestamp m) (error_message m) (cost m) (updated_at m).
Definition set_delivery_timestamp (v : option Z) (m : t) : t :=
  mk (id_message m) (contenu m) (date_envoi m) (statut_livraison m)
     (identifiant_expediteur m) (external_message_id m) (delivery_attempts m)
     (id_liste m) (id_contact m) (id_campagne m) (queue_item_id m)
     (final_status m) v (error_message m) (cost m) (updated_at m).
Definition set_error_message (v : option string) (m : t) : t :=
  mk (id_message m) (contenu m) (date_envoi m) (statut_livraison m)
     (identifiant_expediteur m) (external_message_id m) (delivery_attempts m)
     (id_liste m) (id_contact m) (id_campagne m) (queue_item_id m)
     (final_status m) (delivery_timestamp m) v (cost m) (updated_at m).
Definition set_cost (v : option Q) (m : t) : t :=
  mk (id_message m) (contenu m) (date_envoi m) (statut_livraison m)
     (identifiant_expediteur m) (external_message_id m) (delivery_attempts m)
     (id_liste m) (id_contact m) (id_campagne m) (queue_item_id m)
     (final_status m) (delivery_timestamp m) (error_message m) v
     (updated_at m).
Definition set_updated_at (v : option Z) (m : t) : t :=
  mk (id_message m) (contenu m) (date_envoi m) (statut_livraison m)
     (identifiant_expediteur m) (external_message_id m) (delivery_attempts m)
     (id_liste m) (id_contact m) (id_campagne m) (queue_item_id m)
     (final_status m) (delivery_timestamp m) (error_message m) (cost m) v.
Definition set_queue_item_id (v : option Z) (m : t) : t :=
  mk (id_message m) (contenu m) (date_envoi m) (statut_livraison m)
     (identifiant_expediteur m) (external_message_id m) (delivery_attempts m)
     (id_liste m) (id_contact m) (id_campagne m) v (final_status m)
     (delivery_timestamp m) (error_message m) (cost m) (updated_at m).
End Message.

Module MessageLog.
Record t := mk {
  id : Z;
  message_id : Z;
  queue_item_id : option Z;
  status : string;
  provider_status : option string;
  provider_response : gmap string PyVal;
  error_code : option string;
  error_message : option string;
  attempt_number : Z;
  external_message_id : option string;
  cost : option Q;
  processing_duration : option Z;
  created_at : Z
}.

Definition set_queue_item_id (v : option Z) (l : t) : t :=
  mk (id l) (message_id l) v (status l) (provider_status l)
     (provider_response l) (error_code l) (error_message l) (attempt_number l)
     (external_message_id l) (cost l) (processing_duration l) (created_at l).
End MessageLog.

(** ** The database and the world *)

Record DB := mkDB {
  contacts : list Contact.t;
  campaigns : list Campaign.t;
  sms_queue : list SMSQueue.t;
  messages : list Message.t;
  message_logs : list MessageLog.t;
  sms_queue_id_seq : Z;       (* last value handed out by each serial column *)
  messages_id_seq : Z;
  message_logs_id_seq : Z
}.

Definition set_sms_queue (v : list SMSQueue.t) (d : DB) : DB :=
  mkDB (contacts d) (campaigns d) v (messages d) (message_logs d)
       (sms_queue_id_seq d) (messages_id_seq d) (message_logs_id_seq d).
Definition set_messages (v : list Message.t) (d : DB) : DB :=
  mkDB (contacts d) (campaigns d) (sms_queue d) v (message_logs d)
       (sms_queue_id_seq d) (messages_id_seq d) (message_logs_id_seq d).
Definition set_message_logs (v : list MessageLog.t) (d : DB) : DB :=
  mkDB (contacts d) (campaigns d) (sms_queue d) (messages d) v
       (sms_queue_id_seq d) (messages_id_seq d) (message_logs_id_seq d).
Definition set_sms_queue_id_seq (v : Z) (d : DB) : DB :=
  mkDB (contacts d) (campaigns d) (sms_queue d) (messages d) (message_logs d)
       v (messages_id_seq d) (message_logs_id_seq d).
Definition set_messages_id_seq (v : Z) (d : DB) : DB :=
  mkDB (contacts d) (campaigns d) (sms_queue d) (messages d) (message_logs d)
       (sms_queue_id_seq d) v (message_logs_id_seq d).
Definition set_message_logs_id_seq (v : Z) (d : DB) : DB :=
  mkDB (contacts d) (campaigns d) (sms_queue d) (messages d) (message_logs d)
       (sms_queue_id_seq d) (messages_id_seq d) v.

(** The world a method runs in: the committed database, and the readings the
    clock will give, in the order they will be asked for. *)
Record World := mkWorld {
  db : DB;
  clock : nat → Z
}.

(** ** The monad of methods *)

Definition M (A : Type) : Type := World → Result A * World.

Global Instance M_ret : MRet M := λ A a w, (Ok a, w).
Global Instance M_bind : MBind M := λ A B f m w,
  match m w with
  | (Ok a, w') => f a w'
  | (Raise e, w') => (Raise e, w')
  end.

Definition raise {A} (e : exn) : M A := λ w, (Raise e, w).

(** [try: body except <handler matches e>: handler e].  A handler that does
    not match returns [None] and the exception propagates. *)
Definition try_except {A} (body : M A) (handler : exn → option (M A)) : M A :=
  λ w,
    match body w with
    | (Ok a, w') => (Ok a, w')
    | (Raise e, w') =>
        match handler e with
        | Some h => h w'
        | None => (Raise e, w')
        end
    end.

(** The outcome of a [try] body as a value, for a handler that looks at the
    variables bound so far. *)
Definition attempt {A} (body : M A) : M (Result A) := λ w,
  match body w with
  | (r, w') => (Ok r, w')
  end.

Definition lift {A} (r : Result A) : M A := λ w, (r, w).

(** [datetime.now(timezone.utc)], [time.time()] and the server's [now()]. *)
Definition now : M Z := λ w,
  (Ok (clock w 0%nat), mkWorld (db w) (λ n, clock w (S n))).

Definition get_db : M DB := λ w, (Ok (db w), w).
Definition put_db (d : DB) : M unit := λ w, (Ok tt, mkWorld d (clock w)).

Definition timedelta_minutes (m : Z) : Z := m * 60000000.
Definition one_second : Z := 1000000.

(** ** app/utils/phone_validator.py *)

(** Whitespace removed by [str.strip()], on the ASCII range. *)
Definition is_space (c : ascii) : bool :=
  let n := N_of_ascii c in
  (((9 <=? n) && (n <=? 13)) || ((28 <=? n) && (n <=? 32)))%N.

Fixpoint lstrip_chars (l : list ascii) : list ascii :=
  match l with
  | c :: l' => if is_space c then lstrip_chars l' else l
  | [] => []
  end.

Definition strip (s : string) : string :=
  string_of_list_ascii
    (rev (lstrip_chars (rev (lstrip_chars (list_ascii_of_string s))))).

(** [s.replace(c, '')] for a one-character [c]. *)
Definition remove_char (c : ascii) (s : string) : string :=
  string_of_list_ascii
    (List.filter (λ x, negb (Ascii.eqb x c)) (list_ascii_of_string s)).

(** What the settings object may carry; [None] is an absent attribute, read
    with [getattr(settings, name, default)] or [hasattr]. *)
Record Settings := mkSettings {
  DEFAULT_COUNTRY_CODE : option string;
  SMS_RATE_LIMIT : option PyVal;
  BASE_URL : option string;
  TWILIO_PHONE_NUMBER : option string
}.

(** Arguments of a dynamically typed call. *)
Inductive PyObj :=
  | ObjVal (v : PyVal)
  | ObjBool (b : bool)
  | ObjItem (q : SMSQueue.t)
  | ObjItems (l : list SMSQueue.t)
  | ObjDict (d : gmap string PyVal).

Global Instance truthy_PyObj : Truthy PyObj := λ o,
  match o with
  | ObjVal v => truthy v
  | ObjBool b => b
  | ObjItem _ => true
  | ObjItems l => truthy l
  | ObjDict d => negb (bool_decide (d = ∅))
  end.

Definition z_in (x : Z) (l : list Z) : bool := existsb (Z.eqb x) l.

(** [a <= b] in SQL where [a] may be NULL: a NULL comparison selects nothing. *)
Definition sql_le (a : option Z) (b : Z) : bool :=
  match a with Some x => x <=? b | None => false end.
Definition sql_lt (a : option Z) (b : Z) : bool :=
  match a with Some x => x <? b | None => false end.
Definition is_null {A} (a : option A) : bool :=
  match a with Some _ => false | None => true end.

(** The ordering of [ORDER BY priority ASC, created_at ASC]. *)
Definition priority_then_created (a b : SMSQueue.t) : Prop :=
  SMSQueue.priority a < SMSQueue.priority b
  ∨ (SMSQueue.priority a = SMSQueue.priority b
     ∧ SMSQueue.created_at a ≤ SMSQueue.created_at b).

(** The ordering of [ORDER BY created_at ASC]. *)
Definition created_only (a b : SMSQueue.t) : Prop :=
  SMSQueue.created_at a ≤ SMSQueue.created_at b.

Global Instance priority_then_created_dec a b :
  Decision (priority_then_created a b).
Proof. unfold priority_then_created. apply _. Defined.

Global Instance created_only_dec a b : Decision (created_only a b).
Proof. unfold created_only. apply _. Defined.

(** The range of an INTEGER column, as the migration declares [priority] and
    [max_attempts].  PostgreSQL refuses a value outside it with "integer out of
    range", a [DataError], when it reads the statement: before a row is
    formed and before any check constraint is looked at. *)
Definition fits_integer (z : Z) : bool :=
  (-2147483648 <=? z) && (z <=? 2147483647).

(** [ON DELETE SET NULL] of the foreign keys [fk_messages_queue_item] and
    [fk_message_logs_queue_item] of the migration: a reference to a deleted
    queue row becomes NULL. *)
Definition on_delete_set_null (deleted : list Z) (ref : option Z) : option Z :=
  match ref with
  | Some i => if z_in i deleted then None else Some i
  | None => None
  end.

(** The check constraints of the migration on [sms_queue]. *)
Definition ck_sms_queue_priority_range (q : SMSQueue.t) : bool :=
  (0 <=? SMSQueue.priority q) && (SMSQueue.priority q <=? 10).
Definition ck_sms_queue_max_attempts_range (q : SMSQueue.t) : bool :=
  (1 <=? SMSQueue.max_attempts q) && (SMSQueue.max_attempts q <=? 10).

(** An item is eligible for lease at [t]. *)
Definition eligible (t : Z) (q : SMSQueue.t) : bool :=
  String.eqb (SMSQueue.status q) "pending"
  && sql_le (SMSQueue.scheduled_at q) t
  && (is_null (SMSQueue.next_retry_at q) || sql_le (SMSQueue.next_retry_at q) t).

(** The terminal statuses of a queue item. *)
Definition terminal (s : string) : bool := str_in s ["sent"; "failed"; "cancelled"].

(** ** app/services/sms_queue_service.py *)

Section SMSQueueService.
Context {PhoneNumber : Type}.
(** The [phonenumbers] library: [parse] (a [NumberParseException] is
    [inr reason]), [is_valid_number] and [format_number(_, E164)]. *)
Variable phonenumbers_parse : string → option string → PhoneNumber + string.
Variable phonenumbers_is_valid_number : PhoneNumber → bool.
Variable phonenumbers_format_e164 : PhoneNumber → string.
Variable settings : Settings.

Definition validate_and_format_phone_number
    (phone_number : string) (country_code : option string) : Result string :=
  if negb (truthy phone_number) || negb (truthy (strip phone_number)) then
    Raise (InvalidPhoneNumberError "Phone number cannot be empty.")
  else
    let cleaned_number :=
      remove_char "-" (remove_char "." (remove_char " " (strip phone_number))) in
    match phonenumbers_parse cleaned_number country_code with
    | inl parsed_number =>
        if negb (phonenumbers_is_valid_number parsed_number) then
          Raise (InvalidPhoneNumberError
                   ("The phone number '" +:+ phone_number +:+ "' is not valid."))
        else Ok (phonenumbers_format_e164 parsed_number)
    | inr reason =>
        let error_msg := "Could not parse the phone number '" +:+ phone_number +:+ "'" in
        let error_msg :=
          if truthy country_code
          then error_msg +:+ " with country code '" +:+ str_of_opt country_code +:+ "'"
          else error_msg in
        Raise (InvalidPhoneNumberError (error_msg +:+ ". Reason: " +:+ reason))
    end.

(** [db.add(queue_item); db.commit(); db.refresh(queue_item)].  A value
    that does not fit its INTEGER column is refused first, with a
    [DataError].  Otherwise the INSERT takes the next value of the serial
    column and the server's [now()] for [created_at], then the row is checked
    against the check constraints (in the order of their names); a violation
    aborts the INSERT.  The ids of the contact and of the campaign are those
    of stored rows and fit their columns. *)
Definition insert_sms_queue (q : SMSQueue.t) : M SMSQueue.t :=
  d ← get_db;
  if negb (fits_integer (SMSQueue.priority q)
           && fits_integer (SMSQueue.max_attempts q)) then
    raise (DataError "integer out of range")
  else
  t ← now;
  let new_id := sms_queue_id_seq d + 1 in
  let row :=
    SMSQueue.mk new_id (SMSQueue.campaign_id q) (SMSQueue.contact_id q)
      (SMSQueue.message_content q) (SMSQueue.priority q) (SMSQueue.status q)
      (SMSQueue.attempts q) (SMSQueue.max_attempts q) (SMSQueue.scheduled_at q)
      (SMSQueue.next_retry_at q) (SMSQueue.last_attempt_at q)
      (SMSQueue.processed_at q) (SMSQueue.external_message_id q)
      (SMSQueue.error_message q) t in
  _ ← put_db (set_sms_queue_id_seq new_id d);
  if negb (ck_sms_queue_max_attempts_range row) then
    raise (IntegrityError "ck_sms_queue_max_attempts_range")
  else if negb (ck_sms_queue_priority_range row) then
    raise (IntegrityError "ck_sms_queue_priority_range")
  else
    _ ← put_db (set_sms_queue (sms_queue d ++ [row]) (set_sms_queue_id_seq new_id d));
    mret row.

(** [db.commit()] after attribute assignments on a tracked queue item. *)
Definition commit_queue_item (q : SMSQueue.t) : M unit :=
  d ← get_db;
  put_db (set_sms_queue
            ((λ r, if SMSQueue.id r =? SMSQueue.id q then q else r) <$> sms_queue d) d).

Definition add_to_queue (campaign_id contact_id : Z) (message_content : string)
    (scheduled_at : option Z) (priority max_attempts : Z) : M SMSQueue.t :=
  scheduled_at ← match scheduled_at with
                 | None => now
                 | Some t => mret t
                 end;
  d ← get_db;
  match List.find (λ c, Contact.id_contact c =? contact_id) (contacts d) with
  | None => raise (ValueError ("Contact " +:+ pretty contact_id +:+ " not found"))
  | Some contact =>
      _ ← try_except
            (lift (validate_and_format_phone_number
                     (Contact.numero_telephone contact)
                     (Some (default "FR" (DEFAULT_COUNTRY_CODE settings)))))
            (λ e, match e with
                  | InvalidPhoneNumberError m =>
                      Some (raise (ValueError ("Invalid phone number: " +:+ m)))
                  | _ => None
                  end);
      match List.find (λ c, Campaign.id_campagne c =? campaign_id) (campaigns d) with
      | None => raise (ValueError ("Campaign " +:+ pretty campaign_id +:+ " not found"))
      | Some campaign =>
          if negb (str_in (Campaign.statut campaign) ["active"; "scheduled"]) then
            raise (ValueError ("Campaign " +:+ pretty campaign_id
                               +:+ " is not active or scheduled"))
          else
            insert_sms_queue
              (SMSQueue.mk 0 (Some campaign_id) contact_id message_content
                 priority "pending" 0 max_attempts (Some scheduled_at)
                 None None None None None 0)
      end
  end.

(** [limit] is an [int]; PostgreSQL refuses a negative LIMIT. *)
Definition get_pending_messages (limit : Z) (priority_order : bool)
    : M (list SMSQueue.t) :=
  t1 ← now;
  t2 ← now;
  d ← get_db;
  let rows :=
    List.filter
      (λ q, String.eqb (SMSQueue.status q) "pending"
            && sql_le (SMSQueue.scheduled_at q) t1
            && (is_null (SMSQueue.next_retry_at q)
                || sql_le (SMSQueue.next_retry_at q) t2))
      (sms_queue d) in
  let ordered :=
    if priority_order then merge_sort priority_then_created rows
    else merge_sort created_only rows in
  if limit <? 0 then raise (DataError "LIMIT must not be negative")
  else mret (take (Z.to_nat limit) ordered).

Definition mark_processing (queue_items : PyObj) : M (list SMSQueue.t) :=
  if negb (truthy queue_items) then mret []
  else
    match queue_items with
    | ObjItems l =>
        let item_ids := SMSQueue.id <$> l in
        t ← now;
        d ← get_db;
        _ ← put_db
              (set_sms_queue
                 ((λ r, if z_in (SMSQueue.id r) item_ids
                           && String.eqb (SMSQueue.status r) "pending"
                        then SMSQueue.set_last_attempt_at (Some t)
                               (SMSQueue.set_status "processing" r)
                        else r) <$> sms_queue d) d);
        d' ← get_db;
        mret (List.filter (λ r, z_in (SMSQueue.id r) item_ids) (sms_queue d'))
    | ObjVal (VInt _) => raise (TypeError "'int' object is not iterable")
    | ObjVal VNone => raise (TypeError "'NoneType' object is not iterable")
    | ObjBool _ => raise (TypeError "'bool' object is not iterable")
    | ObjItem _ => raise (TypeError "'SMSQueue' object is not iterable")
    | ObjVal (VStr _) | ObjDict _ =>
        raise (AttributeError "'str' object has no attribute 'id'")
    end.

(** The returned record is the caller's [queue_item] object after the call
    (Python mutates it in place and returns [None]). *)
Definition mark_sent (queue_item : SMSQueue.t) (external_message_id : option string)
    : M SMSQueue.t :=
  let q := SMSQueue.set_status "sent" queue_item in
  t ← now;
  let q := SMSQueue.set_processed_at (Some t) q in
  let q := SMSQueue.set_external_message_id external_message_id q in
  let q := SMSQueue.set_error_message None q in
  _ ← commit_queue_item q;
  mret q.

Definition mark_failed (queue_item : SMSQueue.t) (error_message : string)
    (should_retry : bool) : M SMSQueue.t :=
  let q := SMSQueue.set_attempts (SMSQueue.attempts queue_item + 1) queue_item in
  t ← now;
  let q := SMSQueue.set_last_attempt_at (Some t) q in
  let q := SMSQueue.set_error_message (Some error_message) q in
  q ← (if should_retry && (SMSQueue.attempts q <? SMSQueue.max_attempts q) then
         let backoff_minutes := 2 ^ SMSQueue.attempts q in
         t' ← now;
         let q := SMSQueue.set_next_retry_at
                    (Some (t' + timedelta_minutes backoff_minutes)) q in
         mret (SMSQueue.set_status "pending" q)
       else
         mret (SMSQueue.set_status "failed" q));
  _ ← commit_queue_item q;
  mret q.

Definition cancel_message (queue_item_id : Z) (reason : string) : M bool :=
  d ← get_db;
  match List.find (λ r, SMSQueue.id r =? queue_item_id) (sms_queue d) with
  | None => mret false
  | Some queue_item =>
      if negb (str_in (SMSQueue.status queue_item) ["pending"; "processing"]) then
        mret false
      else
        let q := SMSQueue.set_status "cancelled" queue_item in
        let q := SMSQueue.set_error_message (Some reason) q in
        t ← now;
        let q := SMSQueue.set_processed_at (Some t) q in
        _ ← commit_queue_item q;
        mret true
  end.

Definition timedelta_days (n : Z) : Z := n * 86400000000.

(** The bulk DELETE, and with it the [ON DELETE SET NULL] of the two foreign
    keys to [sms_queue]: the messages and the log rows of a deleted queue row
    stay and lose their [queue_item_id]. *)
Definition cleanup_old_records (days_to_keep : Z) : M Z :=
  t ← now;
  let cutoff_date := t - timedelta_days days_to_keep in
  d ← get_db;
  let doomed (r : SMSQueue.t) :=
    str_in (SMSQueue.status r) ["sent"; "failed"; "cancelled"]
    && sql_lt (SMSQueue.processed_at r) cutoff_date in
  let deleted := SMSQueue.id <$> List.filter doomed (sms_queue d) in
  _ ← put_db
        (set_message_logs
           ((λ l, MessageLog.set_queue_item_id
                    (on_delete_set_null deleted (MessageLog.queue_item_id l)) l)
              <$> message_logs d)
           (set_messages
              ((λ m, Message.set_queue_item_id
                       (on_delete_set_null deleted (Message.queue_item_id m)) m)
                 <$> messages d)
              (set_sms_queue (List.filter (λ r, negb (doomed r)) (sms_queue d)) d)));
  mret (Z.of_nat (length (List.filter doomed (sms_queue d)))).

Definition reset_for_retry (queue_item_id : Z) : M bool :=
  d ← get_db;
  match List.find (λ r, SMSQueue.id r =? queue_item_id) (sms_queue d) with
  | None => mret false
  | Some queue_item =>
      if negb (str_in (SMSQueue.status queue_item) ["failed"; "retry_pending"]) then
        mret false
      else
        let q := SMSQueue.set_status "pending" queue_item in
        let q := SMSQueue.set_next_retry_at None q in
        let q := SMSQueue.set_error_message None q in
        _ ← commit_queue_item q;
        mret true
  end.

End SMSQueueService.

(** ** app/services/message_logging_service.py *)

(** A datetime attribute tested with [if x:] is true exactly when it is set. *)
Definition is_set {A} (a : option A) : bool := negb (is_null a).

(** The text a value takes in a text column ([None] stays NULL). *)
Definition py_text (v : PyVal) : option string :=
  match v with
  | VNone => None
  | VInt n => Some (pretty n)
  | VStr s => Some s
  end.

(** [d.get(key)] *)
Definition dict_get (d : gmap string PyVal) (key : string) : PyVal :=
  default VNone (d !! key).

(** Python's true division. *)
Definition py_div (x y : Q) : M Q :=
  if Qnum y =? 0 then raise (ZeroDivisionError "division by zero")
  else mret (x / y)%Q.

Record CampaignStats := mkCampaignStats {
  total_messages : Z;
  status_breakdown : gmap string Z;
  delivery_rate : Q;
  average_delivery_time : Q;
  total_cost : Q;
  retry_rate : Q;
  error_summary : gmap string Z
}.

(** [hist[key] = hist.get(key, 0) + 1] *)
Definition count_key (hist : gmap string Z) (key : string) : gmap string Z :=
  <[key := default 0 (hist !! key) + 1]> hist.

Definition twilio_mapping : gmap string string :=
  <["queued" := "sent"]>
  (<["sending" := "sent"]>
  (<["sent" := "sent"]>
  (<["delivered" := "delivered"]>
  (<["failed" := "failed"]>
  (<["undelivered" := "failed"]>
  (<["read" := "delivered"]> ∅)))))).

Definition _map_provider_status (provider_status : string) : string :=
  default provider_status (twilio_mapping !! lower provider_status).

Section MessageLoggingService.
Variable settings : Settings.
(** [float(s)] on a string; [None] is a [ValueError]. *)
Variable float_of_string : string → option Q.

(** [float(v)] *)
Definition py_float (v : PyVal) : M Q :=
  match v with
  | VNone => raise (TypeError "float() argument must be a string or a real number, not 'NoneType'")
  | VInt n => mret (inject_Z n)
  | VStr s =>
      match float_of_string s with
      | Some x => mret x
      | None => raise (ValueError ("could not convert string to float: '" +:+ s +:+ "'"))
      end
  end.

Definition _get_sender_identifier : string :=
  default "SMS-PLATFORM" (TWILIO_PHONE_NUMBER settings).

Definition _get_mailing_list_id (queue_item : SMSQueue.t) : M (option Z) :=
  d ← get_db;
  match List.find (λ c, bool_decide (Some (Campaign.id_campagne c) = SMSQueue.campaign_id queue_item))
          (campaigns d) with
  | Some campaign => mret (head (Campaign.mailing_lists campaign))
  | None => mret None
  end.

(** [db.commit()] after attribute assignments on a tracked message. *)
Definition update_message (m : Message.t) (d : DB) : DB :=
  set_messages
    ((λ r, if Message.id_message r =? Message.id_message m then m else r) <$> messages d) d.

(** Returns the new log row and the caller's [message] object after the
    call.  [event_type] is accepted and not stored.  The commit is taken to be
    accepted: the widths of the columns of [messages] and [message_logs] are
    not part of the model, and a value that does not fit them, which
    PostgreSQL would refuse, is written as it is. *)
Definition log_message_event (message : Message.t) (status event_type : string)
    (provider_status : option string)
    (provider_response : option (gmap string PyVal))
    (error_code error_message external_message_id : option string)
    (cost : option Q) (processing_duration queue_item_id : option Z)
    : M (MessageLog.t * Message.t) :=
  d ← get_db;
  let attempt_number :=
    Z.of_nat (length (List.filter
                        (λ l, MessageLog.message_id l =? Message.id_message message)
                        (message_logs d))) + 1 in
  let m := Message.set_statut_livraison status message in
  let m := Message.set_delivery_attempts attempt_number m in
  t ← now;
  let m := Message.set_updated_at (Some t) m in
  let m := if truthy external_message_id
           then Message.set_external_message_id external_message_id m else m in
  let m := if truthy error_message
           then Message.set_error_message error_message m else m in
  let m := if truthy cost then Message.set_cost cost m else m in
  m ← (if str_in status ["delivered"; "failed"; "bounced"] then
         let m := Message.set_final_status (Some status) m in
         if String.eqb status "delivered" then
           t' ← now;
           mret (Message.set_delivery_timestamp (Some t') m)
         else mret m
       else mret m);
  created ← now;
  let new_id := message_logs_id_seq d + 1 in
  let log_entry :=
    MessageLog.mk new_id (Message.id_message message) queue_item_id status
      provider_status (default ∅ provider_response) error_code error_message
      attempt_number external_message_id cost processing_duration created in
  _ ← put_db (update_message m
                (set_message_logs (message_logs d ++ [log_entry])
                   (set_message_logs_id_seq new_id d)));
  mret (log_entry, m).

Definition create_message_record (queue_item : SMSQueue.t) (initial_status : string)
    (external_message_id : option string) : M Message.t :=
  t ← now;
  id_liste ← _get_mailing_list_id queue_item;
  d ← get_db;
  let new_id := messages_id_seq d + 1 in
  let message :=
    Message.mk new_id (SMSQueue.message_content queue_item) t initial_status
      _get_sender_identifier external_message_id 1 id_liste
      (SMSQueue.contact_id queue_item) (SMSQueue.campaign_id queue_item)
      (Some (SMSQueue.id queue_item)) None None None None None in
  _ ← put_db (set_messages (messages d ++ [message]) (set_messages_id_seq new_id d));
  '(_, message) ← log_message_event message initial_status "message_created"
                    None None None None None None None
                    (Some (SMSQueue.id queue_item));
  mret message.

Definition _extract_cost_from_response (provider_response : gmap string PyVal)
    : M (option Q) :=
  let price := dict_get provider_response "price" in
  if truthy price then
    try_except (x ← py_float price; mret (Some x))
      (λ e, match e with
            | ValueError _ | TypeError _ => Some (mret None)
            | _ => None
            end)
  else mret None.

(** The values under ['error_code'] and ['error_message'] reach the text
    columns as their text ([py_text]).  The parameter [webhook_data] is not
    read by the method and is left out. *)
Definition update_delivery_status (external_message_id provider_status : string)
    (provider_response : gmap string PyVal) : M bool :=
  d ← get_db;
  match List.find
          (λ m, bool_decide (Message.external_message_id m = Some external_message_id))
          (messages d) with
  | None => mret false
  | Some message =>
      let internal_status := _map_provider_status provider_status in
      cost ← _extract_cost_from_response provider_response;
      let error_code := py_text (dict_get provider_response "error_code") in
      let error_message := py_text (dict_get provider_response "error_message") in
      _ ← log_message_event message internal_status "delivery_update"
            (Some provider_status) (Some provider_response)
            error_code error_message None cost None None;
      mret true
  end.

Definition sumQ (l : list Q) : Q := fold_left Qplus l 0%Q.

Definition get_campaign_message_stats (campaign_id : Z) : M CampaignStats :=
  d ← get_db;
  let msgs :=
    List.filter (λ m, bool_decide (Message.id_campagne m = Some campaign_id))
      (messages d) in
  let n := Z.of_nat (length msgs) in
  let stats := mkCampaignStats n ∅ 0%Q 0%Q 0%Q 0%Q ∅ in
  if negb (truthy msgs) then mret stats
  else
    let breakdown :=
      fold_left
        (λ acc m,
           let status := if truthy (Message.final_status m)
                         then default "" (Message.final_status m)
                         else Message.statut_livraison m in
           count_key acc status)
        msgs ∅ in
    let delivered_count := default 0 (breakdown !! "delivered") in
    rate ← py_div (inject_Z delivered_count) (inject_Z n);
    let delivery_rate := (rate * 100)%Q in
    let delivered_messages :=
      List.filter (λ m, is_set (Message.delivery_timestamp m)) msgs in
    average ←
      (if truthy delivered_messages then
         let total_delivery_time :=
           sumQ ((λ m, Qdiv (inject_Z (default 0 (Message.delivery_timestamp m)
                                       - Message.date_envoi m))
                              (inject_Z one_second))
                 <$> delivered_messages) in
         py_div total_delivery_time (inject_Z (Z.of_nat (length delivered_messages)))
       else mret 0%Q);
    let cost_total :=
      sumQ ((λ m, default 0%Q (Message.cost m))
            <$> List.filter (λ m, truthy (Message.cost m)) msgs) in
    let retried_messages :=
      List.filter (λ m, 1 <? Message.delivery_attempts m) msgs in
    retry ← py_div (inject_Z (Z.of_nat (length retried_messages))) (inject_Z n);
    let error_logs :=
      List.filter
        (λ l, existsb (λ m, (Message.id_message m =? MessageLog.message_id l)
                            && bool_decide (Message.id_campagne m = Some campaign_id))
                (messages d)
              && is_set (MessageLog.error_code l))
        (message_logs d) in
    let errors :=
      fold_left
        (λ acc l,
           count_key acc (str_of_opt (MessageLog.error_code l) +:+ ": "
                          +:+ str_of_opt (MessageLog.error_message l)))
        error_logs ∅ in
    mret (mkCampaignStats n breakdown delivery_rate average cost_total
            (retry * 100)%Q errors).

End MessageLoggingService.

(** ** app/tasks/sms_tasks.py *)

(** Binding of the keyword arguments of a call [f(k1=v1, ...)] to the
    parameters of [f] (after [self]), each with its default if it has one:
    a keyword that names no parameter is a [TypeError], and so is a parameter
    left without a value. *)
Definition bind_keywords (fname : string) (params : list (string * option PyObj))
    (kwargs : list (string * PyObj)) : Result (list PyObj) :=
  match List.find (λ kv, negb (str_in kv.1 (params.*1))) kwargs with
  | Some (k, _) =>
      Raise (TypeError (fname +:+ "() got an unexpected keyword argument '" +:+ k +:+ "'"))
  | None =>
      fold_right
        (λ (p : string * option PyObj) acc,
           match List.find (λ kv, String.eqb kv.1 p.1) kwargs, p.2, acc with
           | _, _, Raise e => Raise e
           | Some (_, v), _, Ok vs => Ok (v :: vs)
           | None, Some v, Ok vs => Ok (v :: vs)
           | None, None, Ok _ =>
               Raise (TypeError (fname +:+ "() missing 1 required positional argument: '"
                                 +:+ p.1 +:+ "'"))
           end)
        (Ok []) params
  end.

(** [hasattr(locals(), name)]: [locals()] is a [dict], and the test is on the
    attributes of that dict (here its public methods), not on its keys. *)
Definition dict_attributes : list string :=
  ["clear"; "copy"; "fromkeys"; "get"; "items"; "keys"; "pop"; "popitem";
   "setdefault"; "update"; "values"].
Definition hasattr_locals (name : string) : bool := str_in name dict_attributes.

Definition permanent_error_codes : list string :=
  ["21211"; "21214"; "21408"; "21610"; "30007"; "30008"].

Definition _is_permanent_twilio_error (code : option string) : bool :=
  match code with
  | Some c => str_in c permanent_error_codes
  | None => false
  end.

(** The status mapping written out in the send path of [process_sms_batch]. *)
Definition send_internal_status (provider_status : string) : string :=
  if str_in provider_status ["queued"; "sending"] then "sent"
  else if String.eqb provider_status "delivered" then "delivered"
  else if str_in provider_status ["failed"; "undelivered"] then "failed"
  else "sent".

Section Dispatcher.
Variable settings : Settings.
Variable float_of_string : string → option Q.
(** [int(s)] on a string; [None] is a [ValueError]. *)
Variable int_of_string : string → option Z.
(** [TwilioProvider.send_sms(to_number, message, callback_url)] *)
Variable send_sms : string → string → string → Result (gmap string PyVal).

Definition py_int (v : PyVal) : Result Z :=
  match v with
  | VNone => Raise (TypeError "int() argument must be a string, a bytes-like object or a real number, not 'NoneType'")
  | VInt n => Ok n
  | VStr s =>
      match int_of_string s with
      | Some n => Ok n
      | None => Raise (ValueError ("invalid literal for int() with base 10: '" +:+ s +:+ "'"))
      end
  end.

Definition DEFAULT_BATCH_SIZE : Z := 100.

Definition batch_size : Z :=
  match SMS_RATE_LIMIT settings with
  | Some v =>
      if truthy v then
        match py_int v with
        | Ok parsed_limit => if 0 <? parsed_limit then parsed_limit else DEFAULT_BATCH_SIZE
        | Raise _ => DEFAULT_BATCH_SIZE
        end
      else DEFAULT_BATCH_SIZE
  | None => DEFAULT_BATCH_SIZE
  end.

(** The calls [queue_service.mark_sent(...)] and [queue_service.mark_failed(...)]
    as the dispatcher writes them, with keyword arguments; the bodies run on
    the bound arguments.  An attribute access on an argument that is not a
    queue item is an [AttributeError]. *)
Definition call_mark_sent (kwargs : list (string * PyObj)) : M unit :=
  args ← lift (bind_keywords "SMSQueueService.mark_sent"
                 [("queue_item", None); ("external_message_id", None)] kwargs);
  match args with
  | [ObjItem q; ObjVal v] => _ ← mark_sent q (py_text v); mret tt
  | _ => raise (AttributeError "object has no attribute 'status'")
  end.

Definition call_mark_failed (kwargs : list (string * PyObj)) : M unit :=
  args ← lift (bind_keywords "SMSQueueService.mark_failed"
                 [("queue_item", None); ("error_message", None);
                  ("should_retry", Some (ObjBool true))] kwargs);
  match args with
  | [ObjItem q; ObjVal (VStr s); b] => _ ← mark_failed q s (truthy b); mret tt
  | _ => raise (AttributeError "object has no attribute 'attempts'")
  end.

(** [item.contact.numero_telephone] *)
Definition contact_phone (item : SMSQueue.t) : M string :=
  d ← get_db;
  match List.find (λ c, Contact.id_contact c =? SMSQueue.contact_id item) (contacts d) with
  | Some c => mret (Contact.numero_telephone c)
  | None => raise (AttributeError "'NoneType' object has no attribute 'numero_telephone'")
  end.

(** The statements of the [try] block up to the binding of [message]. *)
Definition send_prologue (item : SMSQueue.t) : M Message.t :=
  _ ← mark_processing (ObjVal (VInt (SMSQueue.id item)));
  create_message_record settings item "processing" None.

(** The statements of the [try] block after the binding of [message]. *)
Definition send_body (item : SMSQueue.t) (start_time : Z) (message : Message.t)
    : M unit :=
  let callback_url :=
    default "http://localhost:8000" (BASE_URL settings)
    +:+ "/api/v1/webhooks/sms/status/" +:+ pretty (Message.id_message message) in
  to_number ← contact_phone item;
  response ← lift (send_sms to_number (SMSQueue.message_content item) callback_url);
  t ← now;
  let processing_duration := Z.quot (t - start_time) 1000 in
  let external_message_id := dict_get response "sid" in
  let provider_status := default (VStr "unknown") (response !! "status") in
  let cost := dict_get response "price" in
  let internal_status :=
    match provider_status with
    | VStr s => send_internal_status s
    | _ => "sent"
    end in
  cost ← (if truthy cost then x ← py_float float_of_string cost; mret (Some x)
          else mret None);
  _ ← log_message_event message internal_status "sent"
        (py_text provider_status) (Some response) None None
        (py_text external_message_id) cost (Some processing_duration)
        (Some (SMSQueue.id item));
  call_mark_sent
    [("queue_item_id", ObjVal (VInt (SMSQueue.id item)));
     ("external_message_id", ObjVal external_message_id);
     ("provider_response", ObjDict response)].

(** The two [except] clauses; [message] is the local variable if the [try]
    block had bound it.  (The ["details"] entry of [error_response] is left
    out: the dictionary is only read under the [hasattr] test.) *)
Definition send_handler (item : SMSQueue.t) (start_time : Z)
    (message : option Message.t) (e : exn) : M unit :=
  t ← now;
  let processing_duration := Z.quot (t - start_time) 1000 in
  let log_failure status error_response error_code :=
    if hasattr_locals "message" then
      match message with
      | Some m =>
          _ ← log_message_event m status "send_failed" (Some "error")
                (Some error_response) (Some error_code) (Some (exn_str e)) None None
                (Some processing_duration) (Some (SMSQueue.id item));
          mret tt
      | None =>
          raise (UnboundLocalError
                   "cannot access local variable 'message' where it is not associated with a value")
      end
    else mret tt in
  match e with
  | TwilioApiError code _ =>
      let error_code := default "TWILIO_API_ERROR" code in
      let error_response : gmap string PyVal :=
        <["error_code" := VStr error_code]>
        (<["error_message" := VStr (exn_str e)]> ∅) in
      let is_permanent_failure := _is_permanent_twilio_error code in
      _ ← log_failure (if is_permanent_failure then "failed" else "retry_pending")
            error_response error_code;
      call_mark_failed
        [("queue_item_id", ObjVal (VInt (SMSQueue.id item)));
         ("error_message", ObjVal (VStr (exn_str e)));
         ("is_permanent", ObjBool is_permanent_failure)]
  | _ =>
      let error_response : gmap string PyVal :=
        <["error_code" := VStr "INTERNAL_ERROR"]>
        (<["error_message" := VStr (exn_str e)]> ∅) in
      _ ← log_failure "failed" error_response "INTERNAL_ERROR";
      call_mark_failed
        [("queue_item_id", ObjVal (VInt (SMSQueue.id item)));
         ("error_message", ObjVal (VStr (exn_str e)));
         ("is_permanent", ObjBool true)]
  end.

(** One turn of the [for] loop: the new (success_count, failed_count). *)
Definition process_item (item : SMSQueue.t) (counts : Z * Z) : M (Z * Z) :=
  start_time ← now;
  r ← attempt (send_prologue item);
  match r with
  | Raise e =>
      _ ← send_handler item start_time None e;
      mret (counts.1, counts.2 + 1)
  | Ok message =>
      try_except
        (_ ← send_body item start_time message; mret (counts.1 + 1, counts.2))
        (λ e, Some (_ ← send_handler item start_time (Some message) e;
                    mret (counts.1, counts.2 + 1)))
  end.

Fixpoint process_items (items : list SMSQueue.t) (processed_count : Z)
    (counts : Z * Z) : M (Z * (Z * Z)) :=
  match items with
  | [] => mret (processed_count, counts)
  | item :: rest =>
      counts ← process_item item counts;
      process_items rest (processed_count + 1) counts
  end.

(** The returned dictionary. *)
Definition process_sms_batch : M (gmap string PyVal) :=
  try_except
    (pending_items ← get_pending_messages batch_size true;
     if negb (truthy pending_items) then
       mret (<["status" := VStr "success"]> (<["processed" := VInt 0]> ∅))
     else
       '(processed_count, (success_count, failed_count)) ←
          process_items pending_items 0 (0, 0);
       mret (<["status" := VStr "success"]>
             (<["processed" := VInt processed_count]>
             (<["sent" := VInt success_count]>
             (<["failed" := VInt failed_count]> ∅)))))
    (λ e, Some (mret (<["status" := VStr "error"]>
                      (<["message" := VStr (exn_str e)]> ∅)))).

End Dispatcher.

(** * Definitions used in the statements *)

(** A concrete clock: it starts at second 1000 and each reading is 1 ms later. *)
Definition ex_clock : nat → Z := λ n, 1000000000 + 1000 * Z.of_nat n.

Definition ex_contact : Contact.t := Contact.mk 1 "+33612345678".
Definition ex_campaign : Campaign.t := Campaign.mk 1 "active" [].

(** The database after the commit of a changed queue item. *)
Definition write_back (q : SMSQueue.t) (d : DB) : DB :=
  set_sms_queue ((λ r, if SMSQueue.id r =? SMSQueue.id q then q else r) <$> sms_queue d) d.

(** The item after a failure that will be retried, and after a final one:
    [t] and [t'] are the first and second clock readings. *)
Definition failed_for_retry (item : SMSQueue.t) (msg : string) (t t' : Z) : SMSQueue.t :=
  SMSQueue.set_status "pending"
    (SMSQueue.set_next_retry_at
       (Some (t' + timedelta_minutes (2 ^ (SMSQueue.attempts item + 1))))
       (SMSQueue.set_error_message (Some msg)
          (SMSQueue.set_last_attempt_at (Some t)
             (SMSQueue.set_attempts (SMSQueue.attempts item + 1) item)))).

Definition failed_for_good (item : SMSQueue.t) (msg : string) (t : Z) : SMSQueue.t :=
  SMSQueue.set_status "failed"
    (SMSQueue.set_error_message (Some msg)
       (SMSQueue.set_last_attempt_at (Some t)
          (SMSQueue.set_attempts (SMSQueue.attempts item + 1) item))).

(** A queue item under dispatch: leased, no attempt counted yet. *)
Definition ex_item : SMSQueue.t :=
  SMSQueue.mk 1 (Some 1) 1 "hello" 5 "processing" 0 3 (Some 999000000) None
    (Some 999500000) None None None 998000000.

Definition ex_world : World :=
  mkWorld (mkDB [ex_contact] [ex_campaign] [ex_item] [] [] 1 0 0) ex_clock.

(** A queue item carrying the status [retry_pending]. *)
Definition ex_retry_pending_item : SMSQueue.t :=
  SMSQueue.mk 1 (Some 1) 1 "hello" 5 "retry_pending" 1 3 (Some 999000000)
    (Some 999900000) (Some 999500000) None None (Some "network") 998000000.

Definition ex_retry_pending_world : World :=
  mkWorld (mkDB [ex_contact] [ex_campaign] [ex_retry_pending_item] [] [] 1 0 0) ex_clock.



(** A queue with a cancelled item, an item scheduled for later, an item
    waiting for its retry time, and two items ready to go. *)
Definition ex_queue : list SMSQueue.t :=
  [ SMSQueue.mk 1 (Some 1) 1 "a" 5 "cancelled" 0 3 (Some 900000000) None None
      (Some 950000000) None (Some "Cancelled by user") 900000000;
    SMSQueue.mk 2 (Some 1) 1 "b" 5 "pending" 0 3 (Some 2000000000) None None
      None None None 900000001;
    SMSQueue.mk 3 (Some 1) 1 "c" 5 "pending" 0 3 (Some 900000000) None None
      None None None 900000002;
    SMSQueue.mk 4 (Some 1) 1 "d" 1 "pending" 0 3 (Some 900000000) None None
      None None None 900000003;
    SMSQueue.mk 5 (Some 1) 1 "e" 0 "pending" 1 3 (Some 900000000)
      (Some 3000000000) (Some 950000000) None None (Some "network") 900000004 ].

Definition ex_queue_world : World :=
  mkWorld (mkDB [ex_contact] [ex_campaign] ex_queue [] [] 5 0 0) ex_clock.

Section RequestChecks.
Context {PhoneNumber : Type}.
Variable phonenumbers_parse : string → option string → PhoneNumber + string.
Variable phonenumbers_is_valid_number : PhoneNumber → bool.
Variable phonenumbers_format_e164 : PhoneNumber → string.
Variable settings : Settings.

(** The checks [add_to_queue] makes itself: the contact exists and its
    phone number validates, the campaign exists and is active or scheduled. *)
Definition request_valid (d : DB) (campaign_id contact_id : Z) : bool :=
  match List.find (λ c, Contact.id_contact c =? contact_id) (contacts d) with
  | None => false
  | Some contact =>
      is_ok (validate_and_format_phone_number phonenumbers_parse
               phonenumbers_is_valid_number phonenumbers_format_e164
               (Contact.numero_telephone contact)
               (Some (default "FR" (DEFAULT_COUNTRY_CODE settings))))
      && match List.find (λ c, Campaign.id_campagne c =? campaign_id) (campaigns d) with
         | None => false
         | Some campaign => str_in (Campaign.statut campaign) ["active"; "scheduled"]
         end
  end.

End RequestChecks.

(** The ranges of the specification, which are the check constraints of
    the table. *)
Definition ranges_valid (priority max_attempts : Z) : bool :=
  ((0 <=? priority) && (priority <=? 10))
  && ((1 <=? max_attempts) && (max_attempts <=? 10)).

(** Both values fit the INTEGER columns they are written to. *)
Definition integers_fit (priority max_attempts : Z) : bool :=
  fits_integer priority && fits_integer max_attempts.

(** A phone library that accepts every number, and empty settings. *)
Definition ex_parse (s : string) (_ : option string) : string + string := inl s.
Definition ex_is_valid (_ : string) : bool := true.
Definition ex_format (s : string) : string := s.
Definition ex_settings : Settings := mkSettings None None None None.

Definition ex_empty_world : World :=
  mkWorld (mkDB [ex_contact] [ex_campaign] [] [] [] 0 0 0) ex_clock.

(** The message after the event has been folded into it: [n] is the new
    attempt number, [t] the time of the update, [t'] the time read for a
    delivered event. *)
Definition folded (message : Message.t) (status : string)
    (error_message external_message_id : option string) (cost : option Q)
    (n t t' : Z) : Message.t :=
  let m := Message.set_statut_livraison status message in
  let m := Message.set_delivery_attempts n m in
  let m := Message.set_updated_at (Some t) m in
  let m := if truthy external_message_id
           then Message.set_external_message_id external_message_id m else m in
  let m := if truthy error_message
           then Message.set_error_message error_message m else m in
  let m := if truthy cost then Message.set_cost cost m else m in
  if str_in status ["delivered"; "failed"; "bounced"] then
    let m := Message.set_final_status (Some status) m in
    if String.eqb status "delivered"
    then Message.set_delivery_timestamp (Some t') m else m
  else m.

(** The number of log rows of a message. *)
Definition log_count (d : DB) (message : Message.t) : Z :=
  Z.of_nat (length (List.filter
                      (λ l, MessageLog.message_id l =? Message.id_message message)
                      (message_logs d))).

(** A message that was sent, with two log rows, an error text and a cost
    from earlier events. *)
Definition ex_message : Message.t :=
  Message.mk 1 "hello" 999000000 "sent" "SMS-PLATFORM" (Some "SM1") 2 None 1
    (Some 1) (Some 1) None None (Some "earlier error") (Some (75 # 10000))
    (Some 999500000).

Definition ex_log (i n : Z) (status : string) : MessageLog.t :=
  MessageLog.mk i 1 (Some 1) status None ∅ None None n None None None 999000000.

Definition ex_message_world : World :=
  mkWorld (mkDB [ex_contact] [ex_campaign] [] [ex_message]
             [ex_log 1 1 "processing"; ex_log 2 2 "sent"] 1 1 2)
    ex_clock.

(** The carrier of the happy path: every send succeeds with external id SM1
    and provider status queued. *)
Definition ex_send_sms (to_number message callback_url : string)
    : Result (gmap string PyVal) :=
  Ok (<["sid" := VStr "SM1"]> (<["status" := VStr "queued"]> ∅)).

(** The queue after one submit with priority 5 and max_attempts 3. *)
Definition ex_submitted_world : World :=
  (add_to_queue ex_parse ex_is_valid ex_format ex_settings
     1 1 "hello" None 5 3 ex_empty_world).2.

(** * Further methods *)

(** ** app/services/sms_queue_service.py, continued *)

(** The returned dictionary of [get_cleanup_preview]. *)
Definition get_cleanup_preview (days : Z) : M (gmap string Z) :=
  t ← now;
  let cutoff_date := t - timedelta_days days in
  d ← get_db;
  let old (status : string) : Z :=
    Z.of_nat (length (List.filter
                        (λ r, String.eqb (SMSQueue.status r) status
                              && sql_lt (SMSQueue.processed_at r) cutoff_date)
                        (sms_queue d))) in
  let old_sent_count := old "sent" in
  let old_failed_count := old "failed" in
  let old_cancelled_count := old "cancelled" in
  mret (<["sent_records" := old_sent_count]>
        (<["failed_records" := old_failed_count]>
        (<["cancelled_records" := old_cancelled_count]>
        (<["total_records" := old_sent_count + old_failed_count + old_cancelled_count]>
           ∅)))).

(** The values of the dictionary of [get_queue_stats]. *)
Inductive StatVal :=
  | SByStatus (counts : gmap string Z)
  | SByPriority (counts : gmap Z Z)
  | SFloat (x : Q)
  | SInt (n : Z).

(** [hist[key] = hist.get(key, 0) + 1] on integer keys. *)
Definition count_priority (hist : gmap Z Z) (key : Z) : gmap Z Z :=
  <[key := default 0 (hist !! key) + 1]> hist.

(** [a >= b] in SQL where [a] may be NULL. *)
Definition sql_ge (a : option Z) (b : Z) : bool :=
  match a with Some x => b <=? x | None => false end.
Definition sql_gt (a : option Z) (b : Z) : bool :=
  match a with Some x => b <? x | None => false end.

Definition timedelta_hours (n : Z) : Z := n * 3600000000.

(** [GROUP BY status] with [count(id)]: one entry per status that occurs. *)
Definition group_by_status (rows : list SMSQueue.t) : gmap string Z :=
  fold_left (λ acc r, count_key acc (SMSQueue.status r)) rows ∅.

Definition group_by_priority (rows : list SMSQueue.t) : gmap Z Z :=
  fold_left (λ acc r, count_priority acc (SMSQueue.priority r)) rows ∅.

(** The average of [extract(epoch from processed_at - created_at)] is NULL
    over no row, and [float(avg) if avg else 0] then gives 0. *)
Definition get_queue_stats : M (gmap string StatVal) :=
  d ← get_db;
  let status_counts := group_by_status (sms_queue d) in
  let priority_counts :=
    group_by_priority
      (List.filter (λ r, String.eqb (SMSQueue.status r) "pending") (sms_queue d)) in
  t ← now;
  let twenty_four_hours_ago := t - timedelta_hours 24 in
  let recent :=
    List.filter (λ r, String.eqb (SMSQueue.status r) "sent"
                      && sql_ge (SMSQueue.processed_at r) twenty_four_hours_ago)
      (sms_queue d) in
  let avg_processing_time : option Q :=
    match recent with
    | [] => None
    | _ :: _ =>
        Some (Qdiv
                (sumQ ((λ r, Qdiv (inject_Z (default 0 (SMSQueue.processed_at r)
                                             - SMSQueue.created_at r))
                                  (inject_Z one_second)) <$> recent))
                (inject_Z (Z.of_nat (length recent))))
    end in
  let failed_count :=
    Z.of_nat (length (List.filter (λ r, String.eqb (SMSQueue.status r) "failed")
                        (sms_queue d))) in
  t' ← now;
  let future_scheduled :=
    Z.of_nat (length (List.filter
                        (λ r, String.eqb (SMSQueue.status r) "pending"
                              && sql_gt (SMSQueue.scheduled_at r) t')
                        (sms_queue d))) in
  mret (<["status_counts" := SByStatus status_counts]>
        (<["priority_distribution" := SByPriority priority_counts]>
        (<["avg_processing_time_seconds" :=
             SFloat (if truthy avg_processing_time
                     then default 0%Q avg_processing_time else 0%Q)]>
        (<["failed_messages" := SInt failed_count]>
        (<["future_scheduled" := SInt future_scheduled]> ∅))))).

(** ** app/services/message_logging_service.py, continued *)

Module TimelineEvent.
Record t := mk {
  id : Z;
  timestamp : Z;
  status : string;
  provider_status : option string;
  attempt_number : Z;
  error_code : option string;
  error_message : option string;
  external_message_id : option string;
  cost : option Q;
  processing_duration : option Z;
  provider_response : gmap string PyVal
}.
End TimelineEvent.

(** The ordering of [ORDER BY created_at ASC] on log rows. *)
Definition log_created_le (a b : MessageLog.t) : Prop :=
  MessageLog.created_at a ≤ MessageLog.created_at b.

Global Instance log_created_le_dec a b : Decision (log_created_le a b).
Proof. unfold log_created_le. apply _. Defined.

(** The dictionary built for one log row. *)
Definition timeline_event (log : MessageLog.t) : TimelineEvent.t :=
  TimelineEvent.mk (MessageLog.id log) (MessageLog.created_at log)
    (MessageLog.status log) (MessageLog.provider_status log)
    (MessageLog.attempt_number log) (MessageLog.error_code log)
    (MessageLog.error_message log) (MessageLog.external_message_id log)
    (if truthy (MessageLog.cost log) then MessageLog.cost log else None)
    (MessageLog.processing_duration log) (MessageLog.provider_response log).

Definition get_message_timeline (message_id : Z) : M (list TimelineEvent.t) :=
  d ← get_db;
  let logs :=
    merge_sort log_created_le
      (List.filter (λ l, MessageLog.message_id l =? message_id) (message_logs d)) in
  mret (timeline_event <$> logs).

(** ** app/api/v1/endpoints/webhooks.py: message_status_webhook *)

(** [a or b] on optional strings. *)
Definition py_or (a b : option string) : option string :=
  if truthy a then a else b.

(** The body and the status code after the lookup. *)
Definition lookup_response (success : bool) : string * Z :=
  if success then ("OK", 200) else ("Message not found", 404).

(** The body and the status code of the response.  The form is the
    dictionary of the posted fields, all of them strings.  The handler
    answers 500 for whatever the update raises; [update_delivery_status]
    above is the run of an accepted commit and raises nothing. *)
Definition message_status_webhook (float_of_string : string → option Q)
    (message_id : Z) (form : gmap string string) : M (string * Z) :=
  try_except
    (let external_message_id := py_or (form !! "MessageSid") (form !! "SmsSid") in
     let provider_status := py_or (form !! "MessageStatus") (form !! "SmsStatus") in
     if negb (truthy provider_status) then mret (("Missing status", 400) : string * Z)
     else
       success ← update_delivery_status float_of_string
                   (if truthy external_message_id
                    then default "" external_message_id
                    else "internal_" +:+ pretty message_id)
                   (default "" provider_status) (VStr <$> form);
       mret (lookup_response success))
    (λ e, Some (mret (("Internal server error", 500) : string * Z))).

(** ** app/api/v1/endpoints/queue.py: queue_health_check *)

(** The response of the health check: the dictionary of the normal case, or
    the 503 of the handler. *)
Inductive HealthResponse :=
  | Health200 (status : string) (timestamp : Z)
      (pending_messages processing_messages success_rate : StatVal)
      (warnings : list string)
  | Health503 (timestamp : Z).

(** [stats.get(key, default)] *)
Definition stats_get (stats : gmap string StatVal) (key : string) (dflt : Z) : StatVal :=
  default (SInt dflt) (stats !! key).

(** The number a statistic is compared as; a dictionary does not compare
    with an [int]. *)
Definition stat_number (v : StatVal) : M Q :=
  match v with
  | SInt n => mret (inject_Z n)
  | SFloat x => mret x
  | SByStatus _ | SByPriority _ =>
      raise (TypeError "'>' not supported between instances of 'dict' and 'int'")
  end.

(** [x > y] on numbers. *)
Definition Q_gt (x y : Q) : bool := negb (Qle_bool x y).

Definition queue_health_check : M HealthResponse :=
  try_except
    (stats ← get_queue_stats;
     pending ← stat_number (stats_get stats "total_pending" 0);
     let '(health_status, warnings) :=
       if Q_gt pending 10000
       then ("warning", ["High pending message count"])
       else ("healthy", []) in
     rate ← stat_number (stats_get stats "success_rate" 100);
     let '(health_status, warnings) :=
       if Q_gt 90 rate
       then ("warning", (warnings ++ ["Low success rate"])%list)
       else (health_status, warnings) in
     processing ← stat_number (stats_get stats "total_processing" 0);
     let '(health_status, warnings) :=
       if Q_gt processing 1000
       then ("warning", (warnings ++ ["High processing message count"])%list)
       else (health_status, warnings) in
     t ← now;
     mret (Health200 health_status t
             (stats_get stats "total_pending" 0)
             (stats_get stats "total_processing" 0)
             (stats_get stats "success_rate" 0)
             warnings))
    (λ e, Some (t ← now; mret (Health503 t))).

(** ** app/tasks/sms_tasks.py, continued *)

Section Tasks.
Variable float_of_string : string → option Q.
(** [settings.MESSAGE_RETENTION_DAYS], [None] when the attribute is absent. *)
Variable MESSAGE_RETENTION_DAYS : option PyVal.
(** [TwilioProvider.get_message_status(external_message_id)] *)
Variable get_message_status : string → Result (gmap string PyVal).
(** The offset of the local time zone, in microseconds: [datetime.now()]
    without a time zone is the local wall clock. *)
Variable local_utc_offset : Z.

(** The call [queue_service.cleanup_old_records(days=...)] as the task writes
    it; the body runs on the bound argument. *)
Definition call_cleanup_old_records (kwargs : list (string * PyObj)) : M Z :=
  args ← lift (bind_keywords "SMSQueueService.cleanup_old_records"
                 [("days_to_keep", Some (ObjVal (VInt 30)))] kwargs);
  match args with
  | [ObjVal (VInt n)] => cleanup_old_records n
  | _ => raise (TypeError "unsupported type for timedelta days component")
  end.

Definition cleanup_old_messages : M (gmap string PyVal) :=
  try_except
    (let retention_days := default (VInt 30) MESSAGE_RETENTION_DAYS in
     cleanup_stats ← call_cleanup_old_records [("days", ObjVal retention_days)];
     mret (<["status" := VStr "success"]>
           (<["cleanup_stats" := VInt cleanup_stats]> ∅)))
    (λ e, Some (mret (<["status" := VStr "error"]>
                      (<["message" := VStr (exn_str e)]> ∅)))).

(** [dt.hour] *)
Definition hour_of (t : Z) : Z := (t `div` 3600000000) `mod` 24.

(** [dt.replace(hour=h)] *)
Definition replace_hour (t h : Z) : Result Z :=
  if (0 <=? h) && (h <=? 23)
  then Ok (t - hour_of t * 3600000000 + h * 3600000000)
  else Raise (ValueError "hour must be in 0..23").

(** One turn of the loop of [check_delivery_status]: the new [updated_count].
    The attributes of [message] are read from its stored row. *)
Definition check_one (message : Message.t) (updated_count : Z) : M Z :=
  try_except
    (match Message.external_message_id message with
     | None => raise (TypeError "external_message_id is None")
     | Some ext =>
         status_response ← lift (get_message_status ext);
         if negb (bool_decide (status_response = ∅))
            && truthy (dict_get status_response "status") then
           d ← get_db;
           let current :=
             default message
               (List.find (λ r, Message.id_message r =? Message.id_message message)
                  (messages d)) in
           match dict_get status_response "status" with
           | VStr provider_status =>
               if negb (String.eqb provider_status (Message.statut_livraison current)) then
                 _ ← update_delivery_status float_of_string ext provider_status
                       status_response;
                 mret (updated_count + 1)
               else mret updated_count
           | _ => raise (AttributeError "'int' object has no attribute 'lower'")
           end
         else mret updated_count
     end)
    (λ e, Some (mret updated_count)).

Fixpoint check_all (pending_messages : list Message.t) (updated_count : Z) : M Z :=
  match pending_messages with
  | [] => mret updated_count
  | message :: rest =>
      updated_count ← check_one message updated_count;
      check_all rest updated_count
  end.

Definition check_delivery_status : M (gmap string PyVal) :=
  try_except
    (t ← now;
     t_local ← now;
     cutoff_time ← lift (replace_hour t (hour_of (t_local + local_utc_offset) - 24));
     d ← get_db;
     let pending_messages :=
       List.filter
         (λ m, String.eqb (Message.statut_livraison m) "sent"
               && (cutoff_time <=? Message.date_envoi m)
               && is_set (Message.external_message_id m))
         (messages d) in
     if negb (truthy pending_messages) then
       mret (<["status" := VStr "success"]> (<["checked" := VInt 0]> ∅))
     else
       updated_count ← check_all pending_messages 0;
       mret (<["status" := VStr "success"]>
             (<["checked" := VInt (Z.of_nat (length pending_messages))]>
             (<["updated" := VInt updated_count]> ∅))))
    (λ e, Some (mret (<["status" := VStr "error"]>
                      (<["message" := VStr (exn_str e)]> ∅)))).

End Tasks.

(** * Further definitions used in the statements *)

(** Every message carries the number of its log rows. *)
Definition attempts_consistent (d : DB) : Prop :=
  ∀ m, m ∈ messages d → Message.delivery_attempts m = log_count d m.

(** The attempt numbers of the log rows of a message, in the order of the
    table. *)
Definition attempt_numbers (d : DB) (message_id : Z) : list Z :=
  MessageLog.attempt_number
    <$> List.filter (λ l, MessageLog.message_id l =? message_id) (message_logs d).

(** The log rows of every message are numbered 1, 2, 3, ... *)
Definition logs_ranked (d : DB) : Prop :=
  ∀ i, attempt_numbers d i = seqZ 1 (Z.of_nat (length (attempt_numbers d i))).

(** The serial columns of messages and logs are ahead of every row. *)
Definition sequences_fresh (d : DB) : Prop :=
  (∀ m, m ∈ messages d → Message.id_message m ≤ messages_id_seq d)
  ∧ (∀ l, l ∈ message_logs d → MessageLog.message_id l ≤ messages_id_seq d).

(** [n] failures in a row of the same item, each one retryable. *)
Fixpoint fail_repeatedly (n : nat) (item : SMSQueue.t) (msg : string)
    : M SMSQueue.t :=
  match n with
  | O => mret item
  | S n' =>
      item' ← mark_failed item msg true;
      fail_repeatedly n' item' msg
  end.

(** The number of rows of the queue with a status. *)
Definition count_status (status : string) (rows : list SMSQueue.t) : Z :=
  Z.of_nat (length (List.filter (λ r, String.eqb (SMSQueue.status r) status) rows)).

(** A row is deleted by a cleanup with this cutoff. *)
Definition expired (cutoff : Z) (r : SMSQueue.t) : bool :=
  terminal (SMSQueue.status r) && sql_lt (SMSQueue.processed_at r) cutoff.

(** A form as a status webhook posts it. *)
Definition ex_form (sid status : string) : gmap string string :=
  <["MessageSid" := sid]> (<["MessageStatus" := status]> ∅).

(** A string without the separators the phone validator removes. *)
Definition separator_free (s : string) : Prop :=
  ∀ c, In c (list_ascii_of_string s) →
       c ≠ " "%char ∧ c ≠ "."%char ∧ c ≠ "-"%char.

(** * Properties *)

(** Unfolding of the monad, for proofs that run a method symbolically. *)
Ltac run_M :=
  unfold mbind, M_bind, mret, M_ret, now, get_db, put_db, raise, lift,
    try_except, attempt in *;
  simpl in *.

(** Closes the goals made of conjunctions, equivalences and existentials over
    results that are already evaluated. *)
Ltac settle :=
  repeat match goal with
         | |- _ ∧ _ => split
         | |- _ ↔ _ => split
         | |- ∀ _, _ => intro
         | H : ∃ _, _ |- _ => destruct H
         | H : _ ∧ _ |- _ => destruct H
         | H : Ok _ = Ok _ |- _ => injection H as H; subst
         end;
  simpl in *; try congruence; eauto.

(** ** Queue items: rows and their updates *)

Lemma find_id_updated (i : Z) (rows : list SMSQueue.t) (q q' : SMSQueue.t) :
  List.find (λ r, SMSQueue.id r =? i) rows = Some q →
  SMSQueue.id q' = i →
  List.find (λ r, SMSQueue.id r =? i)
    ((λ r, if SMSQueue.id r =? i then q' else r) <$> rows) = Some q'.
Proof.
  intros Hfind Hid.
  induction rows as [|r rows IH]; simpl in *; [discriminate|].
  destruct (SMSQueue.id r =? i) eqn:E.
  - simpl. rewrite Hid, Z.eqb_refl. reflexivity.
  - rewrite E. apply IH, Hfind.
Qed.

Lemma find_some_id (i : Z) (rows : list SMSQueue.t) (q : SMSQueue.t) :
  List.find (λ r, SMSQueue.id r =? i) rows = Some q → SMSQueue.id q = i ∧ q ∈ rows.
Proof.
  intros H. apply find_some in H as [Hin Heq].
  split; [lia | by apply list_elem_of_In].
Qed.


(** ** mark_sent and cancel_message set [processed_at] *)

Lemma mark_sent_sets_processed_at (item : SMSQueue.t) (ext : option string) (w : World) :
  ∃ q w', mark_sent item ext w = (Ok q, w')
          ∧ SMSQueue.status q = "sent"
          ∧ SMSQueue.processed_at q = Some (clock w 0%nat)
          ∧ SMSQueue.external_message_id q = ext
          ∧ SMSQueue.error_message q = None.
Proof. unfold mark_sent, commit_queue_item. run_M. eauto 10. Qed.

Lemma cancel_message_sets_processed_at (i : Z) (reason : string) (w : World) (q : SMSQueue.t) :
  List.find (λ r, SMSQueue.id r =? i) (sms_queue (db w)) = Some q →
  str_in (SMSQueue.status q) ["pending"; "processing"] = true →
  ∃ w' q', cancel_message i reason w = (Ok true, w')
           ∧ List.find (λ r, SMSQueue.id r =? i) (sms_queue (db w')) = Some q'
           ∧ SMSQueue.status q' = "cancelled"
           ∧ SMSQueue.processed_at q' = Some (clock w 0%nat).
Proof.
  intros Hfind Hst. unfold cancel_message, commit_queue_item. run_M.
  rewrite Hfind, Hst. simpl.
  destruct (find_some_id _ _ _ Hfind) as [Hid _]. subst i.
  eexists _, (SMSQueue.set_processed_at (Some (clock w 0%nat))
                (SMSQueue.set_error_message (Some reason)
                   (SMSQueue.set_status "cancelled" q))).
  split; [reflexivity|]. simpl.
  split; [apply (find_id_updated _ _ q); [assumption | reflexivity]|].
  split; reflexivity.
Qed.

(** ** mark_failed *)

Lemma mark_failed_retry (item : SMSQueue.t) (msg : string) (w : World) :
  SMSQueue.attempts item + 1 < SMSQueue.max_attempts item →
  let q := failed_for_retry item msg (clock w 0%nat) (clock w 1%nat) in
  mark_failed item msg true w
  = (Ok q, mkWorld (write_back q (db w)) (λ n, clock w (S (S n)))).
Proof.
  intros Hlt. unfold mark_failed, commit_queue_item. run_M.
  destruct (Z.ltb_spec (SMSQueue.attempts item + 1) (SMSQueue.max_attempts item)); [|lia].
  reflexivity.
Qed.

Lemma mark_failed_final (item : SMSQueue.t) (msg : string) (should_retry : bool) (w : World) :
  should_retry = false ∨ SMSQueue.max_attempts item ≤ SMSQueue.attempts item + 1 →
  let q := failed_for_good item msg (clock w 0%nat) in
  mark_failed item msg should_retry w
  = (Ok q, mkWorld (write_back q (db w)) (λ n, clock w (S n))).
Proof.
  intros H. unfold mark_failed, commit_queue_item. run_M.
  assert (should_retry
          && (SMSQueue.attempts item + 1 <? SMSQueue.max_attempts item) = false) as ->.
  { destruct H as [-> | H]; [reflexivity|].
    apply andb_false_iff. right. apply Z.ltb_ge. exact H. }
  reflexivity.
Qed.

Lemma mark_failed_keeps_processed_at (item : SMSQueue.t) (msg : string)
    (should_retry : bool) (w : World) :
  ∃ q w', mark_failed item msg should_retry w = (Ok q, w')
          ∧ SMSQueue.processed_at q = SMSQueue.processed_at item.
Proof.
  unfold mark_failed, commit_queue_item. run_M.
  destruct (should_retry && _); eexists _, _; (split; [reflexivity|]); reflexivity.
Qed.

(** [cleanup_old_records] selects on [processed_at]: a row whose
    [processed_at] is NULL is never deleted. *)
Lemma cleanup_keeps_unprocessed (days : Z) (w : World) (q : SMSQueue.t) :
  q ∈ sms_queue (db w) → SMSQueue.processed_at q = None →
  ∃ n w', cleanup_old_records days w = (Ok n, w') ∧ q ∈ sms_queue (db w').
Proof.
  intros Hin Hnull. unfold cleanup_old_records. run_M.
  eexists _, _. split; [reflexivity|]. simpl.
  apply list_elem_of_In, filter_In. split; [by apply list_elem_of_In|].
  rewrite Hnull. simpl. by rewrite andb_false_r.
Qed.

(** C1 (the code departs from the claim).  The claim: every item whose status
    is sent, failed or cancelled has [processed_at] set, in particular after
    [mark_failed].  Here [mark_failed] is run on a leased item with a permanent
    failure ([should_retry = False]): the item and its row end with status
    failed, a terminal status, and [processed_at] still NULL. *)
Theorem mark_failed_terminal_without_processed_at :
  ∃ q w', mark_failed ex_item "boom" false ex_world = (Ok q, w')
          ∧ SMSQueue.status q = "failed"
          ∧ terminal (SMSQueue.status q) = true
          ∧ SMSQueue.processed_at q = None
          ∧ sms_queue (db w') = [q].
Proof.
  eexists _, _. split.
  - apply mark_failed_final. left. reflexivity.
  - repeat split.
Qed.




(** ** reset_for_retry *)

(** C6, the claim as stated fails: [reset_for_retry] succeeds on an item whose
    status is not failed (it is retry_pending), and makes it pending. *)
Lemma reset_for_retry_accepts_retry_pending :
  List.find (λ r, SMSQueue.id r =? 1) (sms_queue (db ex_retry_pending_world))
    = Some ex_retry_pending_item
  ∧ SMSQueue.status ex_retry_pending_item ≠ "failed"
  ∧ ∃ w', reset_for_retry 1 ex_retry_pending_world = (Ok true, w')
          ∧ SMSQueue.status <$> sms_queue (db w') = ["pending"].
Proof.
  split; [reflexivity|]. split; [discriminate|].
  eexists. unfold reset_for_retry, commit_queue_item. run_M.
  split; reflexivity.
Qed.

(** C6 (amended).  [reset_for_retry] always returns; it returns true exactly
    when the item exists and its status is failed or retry_pending.  On
    success the stored item is the former one with status pending and
    [next_retry_at] and [error_message] cleared, [attempts] (and every other
    field) as before, and the other rows are untouched; on false nothing
    changes. *)
Theorem reset_for_retry_spec (i : Z) (w : World) :
  ∃ b w',
    reset_for_retry i w = (Ok b, w')
    ∧ (b = true ↔
       ∃ q, List.find (λ r, SMSQueue.id r =? i) (sms_queue (db w)) = Some q
            ∧ (SMSQueue.status q = "failed" ∨ SMSQueue.status q = "retry_pending"))
    ∧ (b = false → w' = w)
    ∧ (b = true →
       ∃ q q',
         List.find (λ r, SMSQueue.id r =? i) (sms_queue (db w)) = Some q
         ∧ q' = SMSQueue.set_error_message None
                  (SMSQueue.set_next_retry_at None (SMSQueue.set_status "pending" q))
         ∧ List.find (λ r, SMSQueue.id r =? i) (sms_queue (db w')) = Some q'
         ∧ SMSQueue.status q' = "pending"
         ∧ SMSQueue.next_retry_at q' = None
         ∧ SMSQueue.error_message q' = None
         ∧ SMSQueue.attempts q' = SMSQueue.attempts q
         ∧ sms_queue (db w')
           = (λ r, if SMSQueue.id r =? i then q' else r) <$> sms_queue (db w)).
Proof.
  unfold reset_for_retry, commit_queue_item. run_M.
  destruct (List.find _ _) as [q|] eqn:Hfind.
  - destruct (find_some_id _ _ _ Hfind) as [Hid _].
    destruct (String.eqb_spec (SMSQueue.status q) "failed") as [Hf|Hf];
      [|destruct (String.eqb_spec (SMSQueue.status q) "retry_pending") as [Hr|Hr]];
      simpl.
    1,2: eexists true, _; split; [reflexivity|]; simpl;
         (split; [split; [intros _; exists q; split; [reflexivity | tauto] | reflexivity]|]);
         (split; [discriminate|]); intros _;
         eexists q, _; split; [reflexivity|]; split; [reflexivity|];
         rewrite Hid;
         (split; [apply (find_id_updated _ _ q); [exact Hfind | exact Hid]|]);
         repeat split.
    eexists false, _. split; [reflexivity|].
    split; [|split; [reflexivity | discriminate]].
    split; [discriminate|]. intros (q0 & [= <-] & [? | ?]); contradiction.
  - eexists false, _. split; [reflexivity|].
    split; [|split; [reflexivity | discriminate]].
    split; [discriminate|]. intros (q0 & [=] & _).
Qed.

(** ** get_pending_messages *)

Global Instance priority_then_created_total : Total priority_then_created.
Proof. intros a b. unfold priority_then_created. lia. Qed.

Global Instance priority_then_created_trans : Transitive priority_then_created.
Proof. intros a b c. unfold priority_then_created. lia. Qed.

(** Eligibility only grows with time. *)
Lemma eligible_mono (t t' : Z) (q : SMSQueue.t) :
  t ≤ t' → eligible t q = true → eligible t' q = true.
Proof.
  unfold eligible, sql_le, is_null. intros Hle.
  destruct (String.eqb _ _); simpl; [|discriminate].
  destruct (SMSQueue.scheduled_at q) as [s|]; simpl; [|discriminate].
  destruct (SMSQueue.next_retry_at q) as [r|]; simpl.
  - rewrite !andb_true_iff, !Z.leb_le. lia.
  - rewrite !andb_true_iff, !Z.leb_le. intuition lia.
Qed.

(** The rows the query selects are eligible at its second clock reading. *)
Lemma selected_eligible (t1 t2 : Z) (q : SMSQueue.t) :
  t1 ≤ t2 →
  String.eqb (SMSQueue.status q) "pending"
  && sql_le (SMSQueue.scheduled_at q) t1
  && (is_null (SMSQueue.next_retry_at q) || sql_le (SMSQueue.next_retry_at q) t2) = true →
  eligible t2 q = true.
Proof.
  unfold eligible, sql_le, is_null. intros Hle.
  destruct (String.eqb _ _); simpl; [|discriminate].
  destruct (SMSQueue.scheduled_at q) as [s|]; simpl; [|discriminate].
  rewrite !andb_true_iff, !Z.leb_le. intros [Hs Hr]. split; [lia | exact Hr].
Qed.

Lemma get_pending_messages_negative_limit (limit : Z) (order : bool) (w : World) :
  limit < 0 →
  ∃ w', get_pending_messages limit order w
        = (Raise (DataError "LIMIT must not be negative"), w').
Proof.
  intros H. unfold get_pending_messages. run_M.
  destruct (Z.ltb_spec limit 0); [eauto | lia].
Qed.

(** C5.  For a limit that is not negative and a clock that does not run
    backwards between the two readings of the query, [get_pending_messages]
    returns (and changes no row); every returned item is a row of the queue
    that is eligible for lease at the time of the second reading and at every
    later time, so it is pending (not cancelled) and its [scheduled_at] is not
    in the future; the items come in ascending priority, then ascending
    [created_at]; and there are at most [limit] of them. *)
Theorem get_pending_messages_eligible_ordered (limit : Z) (w : World) :
  0 ≤ limit →
  clock w 0%nat ≤ clock w 1%nat →
  ∃ items,
    get_pending_messages limit true w
    = (Ok items, mkWorld (db w) (λ n, clock w (S (S n))))
    ∧ (∀ q, q ∈ items →
         q ∈ sms_queue (db w)
         ∧ (∀ t, clock w 1%nat ≤ t → eligible t q = true)
         ∧ SMSQueue.status q = "pending"
         ∧ SMSQueue.status q ≠ "cancelled"
         ∧ ∃ s, SMSQueue.scheduled_at q = Some s ∧ s ≤ clock w 1%nat)
    ∧ StronglySorted priority_then_created items
    ∧ Z.of_nat (length items) ≤ limit.
Proof.
  intros Hlimit Hclock. unfold get_pending_messages. run_M.
  destruct (Z.ltb_spec limit 0); [lia|].
  eexists. split; [reflexivity|].
  split; [|split].
  - intros q Hq.
    apply (subseteq_take (Z.to_nat limit)) in Hq.
    rewrite merge_sort_Permutation in Hq.
    apply list_elem_of_In, filter_In in Hq as [Hin Hsel].
    pose proof (selected_eligible _ _ _ Hclock Hsel) as Hel.
    split; [by apply list_elem_of_In|].
    split; [intros t Ht; by apply (eligible_mono (clock w 1%nat))|].
    unfold eligible in Hel.
    apply andb_true_iff in Hel as [Hel _].
    apply andb_true_iff in Hel as [Hst Hsched].
    apply String.eqb_eq in Hst.
    split; [exact Hst|]. split; [rewrite Hst; discriminate|].
    unfold sql_le in Hsched.
    destruct (SMSQueue.scheduled_at q) as [s|]; [|discriminate].
    exists s. split; [reflexivity | by apply Z.leb_le].
  - match goal with
    | |- StronglySorted _ (take ?n ?l) =>
        assert (StronglySorted priority_then_created l) as Hs
          by (apply StronglySorted_merge_sort; apply _);
        rewrite <- (take_drop n l) in Hs
    end.
    by apply StronglySorted_app_1_l in Hs.
  - rewrite length_take. lia.
Qed.

Lemma get_pending_messages_eligible_ordered_witness :
  (0 ≤ 10 ∧ clock ex_queue_world 0%nat ≤ clock ex_queue_world 1%nat)
  ∧ ∃ items, (get_pending_messages 10 true ex_queue_world).1 = Ok items
             ∧ SMSQueue.id <$> items = [4; 3]
             ∧ StronglySorted priority_then_created items.
Proof.
  split; [split; [lia | unfold ex_queue_world, ex_clock; simpl; lia]|].
  destruct (get_pending_messages_eligible_ordered 10 ex_queue_world)
    as (items & Hrun & _ & Hsorted & _);
    [lia | unfold ex_queue_world, ex_clock; simpl; lia |].
  exists items. split; [rewrite Hrun; reflexivity|].
  split; [|exact Hsorted].
  pose proof (f_equal fst Hrun) as Hval. vm_compute in Hval.
  injection Hval as <-. reflexivity.
Defined.

(** ** add_to_queue *)

Section AddToQueue.
Context {PhoneNumber : Type}.
Variable phonenumbers_parse : string → option string → PhoneNumber + string.
Variable phonenumbers_is_valid_number : PhoneNumber → bool.
Variable phonenumbers_format_e164 : PhoneNumber → string.
Variable settings : Settings.

Local Abbreviation validate :=
  (validate_and_format_phone_number phonenumbers_parse
     phonenumbers_is_valid_number phonenumbers_format_e164).
Local Abbreviation submit :=
  (add_to_queue phonenumbers_parse phonenumbers_is_valid_number
     phonenumbers_format_e164 settings).
Local Abbreviation valid_request :=
  (request_valid phonenumbers_parse phonenumbers_is_valid_number
     phonenumbers_format_e164 settings).

Lemma validate_raises_only_invalid_phone (phone : string) (cc : option string) :
  (∃ s, validate phone cc = Ok s)
  ∨ (∃ m, validate phone cc = Raise (InvalidPhoneNumberError m)).
Proof.
  unfold validate_and_format_phone_number.
  destruct (_ || _); [right; eauto|].
  destruct (phonenumbers_parse _ _); [|right; eauto].
  destruct (negb _); [right | left]; eauto.
Qed.

Lemma ranges_valid_integers_fit (priority max_attempts : Z) :
  ranges_valid priority max_attempts = true →
  integers_fit priority max_attempts = true.
Proof.
  unfold ranges_valid, integers_fit, fits_integer. intros H.
  repeat (apply andb_prop in H as [H ?]).
  repeat (apply andb_true_intro; split); lia.
Qed.

(** C4 (amended).  [add_to_queue] always returns or raises.  It raises a
    [ValueError], and leaves the database as it was, exactly when the
    contact is missing, its phone number does not validate, the campaign is
    missing or its status is neither active nor scheduled.  It does not
    check [priority] or [max_attempts] itself.  For a request that passes
    those checks, the INSERT is refused at commit and no queue row is
    created when a priority is outside 0..10 or a max_attempts outside 1..10:
    by the check constraints of [sms_queue], with an [IntegrityError], when
    both values fit the 32-bit INTEGER columns, and with a [DataError]
    (integer out of range), before any constraint is looked at, when one does
    not.  Otherwise one row is appended: pending, no attempt, with the given
    priority, max_attempts, content, campaign and contact, scheduled at the
    given time or at the first clock reading. *)
Theorem add_to_queue_validation (campaign_id contact_id : Z) (content : string)
    (scheduled_at : option Z) (priority max_attempts : Z) (w : World) :
  ∃ r w',
    submit campaign_id contact_id content scheduled_at priority max_attempts w = (r, w')
    ∧ ((∃ m, r = Raise (ValueError m))
        ↔ valid_request (db w) campaign_id contact_id = false)
    ∧ (valid_request (db w) campaign_id contact_id = false → db w' = db w)
    ∧ (r = Raise (DataError "integer out of range")
        ↔ valid_request (db w) campaign_id contact_id = true
          ∧ integers_fit priority max_attempts = false)
    ∧ ((∃ c, r = Raise (IntegrityError c))
        ↔ valid_request (db w) campaign_id contact_id = true
          ∧ integers_fit priority max_attempts = true
          ∧ ranges_valid priority max_attempts = false)
    ∧ (is_ok r = false → sms_queue (db w') = sms_queue (db w))
    ∧ (is_ok r = true ↔
       valid_request (db w) campaign_id contact_id = true
       ∧ ranges_valid priority max_attempts = true)
    ∧ (∀ q, r = Ok q →
         sms_queue (db w') = (sms_queue (db w) ++ [q])%list
         ∧ SMSQueue.status q = "pending"
         ∧ SMSQueue.attempts q = 0
         ∧ SMSQueue.priority q = priority
         ∧ SMSQueue.max_attempts q = max_attempts
         ∧ SMSQueue.message_content q = content
         ∧ SMSQueue.campaign_id q = Some campaign_id
         ∧ SMSQueue.contact_id q = contact_id
         ∧ SMSQueue.scheduled_at q = Some (default (clock w 0%nat) scheduled_at)
         ∧ SMSQueue.processed_at q = None
         ∧ SMSQueue.next_retry_at q = None).
Proof.
  pose proof (ranges_valid_integers_fit priority max_attempts) as Hfit.
  unfold add_to_queue, request_valid, insert_sms_queue,
    ck_sms_queue_max_attempts_range, ck_sms_queue_priority_range.
  fold (integers_fit priority max_attempts).
  destruct scheduled_at as [t|]; run_M.
  all: fold (integers_fit priority max_attempts).
  all: destruct (List.find _ (contacts (db w))) as [contact|];
    [|eexists _, _; split; [reflexivity|]; simpl; settle].
  all: destruct (validate_raises_only_invalid_phone
                (Contact.numero_telephone contact)
                (Some (default "FR" (DEFAULT_COUNTRY_CODE settings))))
      as [[s ->] | [m ->]]; simpl;
    [|eexists _, _; split; [reflexivity|]; simpl; settle].
  all: destruct (List.find _ (campaigns (db w))) as [campaign|];
    [|eexists _, _; split; [reflexivity|]; simpl; settle].
  all: match goal with
       | |- context [if negb ?b then _ else _] => destruct b eqn:Estatut
       end; simpl;
    [|eexists _, _; split; [reflexivity|]; simpl; settle].
  all: destruct (integers_fit priority max_attempts) eqn:Efit; simpl;
    [|destruct (ranges_valid priority max_attempts) eqn:Erange;
      [specialize (Hfit eq_refl); discriminate Hfit|];
      eexists _, _; (split; [reflexivity|]); simpl; settle].
  all: unfold ranges_valid in *.
  all: destruct ((1 <=? max_attempts) && (max_attempts <=? 10)) eqn:Emax; simpl;
    [destruct ((0 <=? priority) && (priority <=? 10)) eqn:Eprio; simpl|
     rewrite andb_false_r].
  all: eexists _, _; (split; [reflexivity|]); simpl; settle.
Qed.

End AddToQueue.

(** A priority beyond the INTEGER column is refused before the check
    constraints are looked at. *)
Lemma add_to_queue_integer_out_of_range :
  (add_to_queue ex_parse ex_is_valid ex_format ex_settings
     1 1 "hello" None 2147483648 3 ex_empty_world).1
  = Raise (DataError "integer out of range").
Proof. vm_compute. reflexivity. Qed.

(** C4, the claim as stated fails: with an existing contact, a valid phone
    number and an active campaign, a call with priority 11 (or with
    max_attempts 0) is not refused by a validation error of [add_to_queue]:
    the method raises no [ValueError]; the INSERT is refused by a check
    constraint of the table. *)
Lemma add_to_queue_out_of_range_not_value_error :
  let r11 := (add_to_queue ex_parse ex_is_valid ex_format ex_settings
                1 1 "hello" None 11 3 ex_empty_world).1 in
  let r0 := (add_to_queue ex_parse ex_is_valid ex_format ex_settings
               1 1 "hello" None 5 0 ex_empty_world).1 in
  request_valid ex_parse ex_is_valid ex_format ex_settings (db ex_empty_world) 1 1 = true
  ∧ r11 = Raise (IntegrityError "ck_sms_queue_priority_range")
  ∧ r0 = Raise (IntegrityError "ck_sms_queue_max_attempts_range")
  ∧ ¬ (∃ m, r11 = Raise (ValueError m))
  ∧ ¬ (∃ m, r0 = Raise (ValueError m)).
Proof.
  assert ((add_to_queue ex_parse ex_is_valid ex_format ex_settings
             1 1 "hello" None 11 3 ex_empty_world).1
          = Raise (IntegrityError "ck_sms_queue_priority_range")) as H11
    by (vm_compute; reflexivity).
  assert ((add_to_queue ex_parse ex_is_valid ex_format ex_settings
             1 1 "hello" None 5 0 ex_empty_world).1
          = Raise (IntegrityError "ck_sms_queue_max_attempts_range")) as H0
    by (vm_compute; reflexivity).
  intros r11 r0. subst r11 r0. rewrite H11, H0.
  split; [vm_compute; reflexivity|].
  split; [reflexivity|]. split; [reflexivity|].
  split; intros [m [=]].
Qed.

(** ** log_message_event *)

Lemma log_message_event_run (message : Message.t) (status event_type : string)
    (provider_status : option string) (provider_response : option (gmap string PyVal))
    (error_code error_message external_message_id : option string)
    (cost : option Q) (processing_duration queue_item_id : option Z) (w : World) :
  let delivered := String.eqb status "delivered" in
  let n := log_count (db w) message + 1 in
  let m' := folded message status error_message external_message_id cost n
              (clock w 0%nat) (clock w 1%nat) in
  let log :=
    MessageLog.mk (message_logs_id_seq (db w) + 1) (Message.id_message message)
      queue_item_id status provider_status (default ∅ provider_response)
      error_code error_message n external_message_id cost processing_duration
      (clock w (if delivered then 2%nat else 1%nat)) in
  log_message_event message status event_type provider_status provider_response
    error_code error_message external_message_id cost processing_duration
    queue_item_id w
  = (Ok (log, m'),
     mkWorld
       (update_message m'
          (set_message_logs (message_logs (db w) ++ [log])
             (set_message_logs_id_seq (message_logs_id_seq (db w) + 1) (db w))))
       (λ k, clock w (if delivered then S (S (S k)) else S (S k)))).
Proof.
  unfold log_message_event, folded, log_count. run_M.
  destruct (String.eqb status "delivered") eqn:Ed; simpl; [reflexivity|].
  destruct (String.eqb status "failed" || (String.eqb status "bounced" || false));
    reflexivity.
Qed.

Lemma folded_id (message : Message.t) status em ext cost n t t' :
  Message.id_message (folded message status em ext cost n t t')
  = Message.id_message message.
Proof.
  unfold folded.
  repeat match goal with
         | |- context [if ?b then _ else _] => destruct b
         end; reflexivity.
Qed.

Lemma find_message_updated (i : Z) (rows : list Message.t) (m m' : Message.t) :
  List.find (λ r, Message.id_message r =? i) rows = Some m →
  Message.id_message m' = i →
  List.find (λ r, Message.id_message r =? i)
    ((λ r, if Message.id_message r =? i then m' else r) <$> rows) = Some m'.
Proof.
  intros Hfind Hid.
  induction rows as [|r rows IH]; simpl in *; [discriminate|].
  destruct (Message.id_message r =? i) eqn:E.
  - simpl. rewrite Hid, Z.eqb_refl. reflexivity.
  - rewrite E. apply IH, Hfind.
Qed.

Lemma find_message_by_id_exists (rows : list Message.t) (m : Message.t) :
  m ∈ rows →
  ∃ m0, List.find (λ r, Message.id_message r =? Message.id_message m) rows = Some m0.
Proof.
  intros Hin. apply list_elem_of_In in Hin.
  destruct (List.find _ rows) as [m0|] eqn:E; [eauto|].
  exfalso. apply (find_none _ _ E) in Hin. simpl in Hin. lia.
Qed.

(** What [if x:] tests on the optional text and cost arguments. *)
Lemma truthy_text (o : option string) :
  truthy o = true ↔ ∃ s, o = Some s ∧ s ≠ "".
Proof.
  destruct o as [[|c s]|]; simpl; split; try discriminate.
  - intros (s' & [= <-] & H). congruence.
  - intros _. exists (String c s). split; [reflexivity | discriminate].
  - reflexivity.
  - intros (s' & [=] & _).
Qed.

Lemma truthy_cost (o : option Q) :
  truthy o = true ↔ ∃ x, o = Some x ∧ ¬ (x == 0)%Q.
Proof.
  destruct o as [x|]; [|split; [discriminate | intros (x & [=] & _)]].
  change (truthy (Some x)) with (negb (Qnum x =? 0)).
  unfold Qeq. simpl. rewrite negb_true_iff, Z.eqb_neq.
  split.
  - intros H. exists x. split; [reflexivity | lia].
  - intros (y & [= <-] & H). lia.
Qed.

(** C7, the claim as stated fails: a cost of 0.0 and an empty error message
    are not null, and they are not written to the message, which keeps the
    earlier cost and error message. *)
Lemma log_message_event_zero_cost_not_written :
  ∃ log m' w',
    log_message_event ex_message "sent" "delivery_update" None None None
      (Some "") None (Some 0%Q) None None ex_message_world = (Ok (log, m'), w')
    ∧ Message.cost m' = Some (75 # 10000)
    ∧ Message.cost m' ≠ Some 0%Q
    ∧ Message.error_message m' = Some "earlier error"
    ∧ Message.error_message m' ≠ Some "".
Proof.
  eexists _, _, _. split; [apply log_message_event_run|].
  simpl. repeat split; discriminate.
Qed.

(** C7 (amended).  [log_message_event] always returns.  The new log row is
    appended with [attempt_number] = (number of log rows of the message) + 1,
    and the message's [delivery_attempts] is that number.  Each of the message
    fields [external_message_id], [error_message], [cost] takes the new value
    exactly when that value is true in Python's sense (set, and not the empty
    string, not zero), and keeps the stored value otherwise: for a null value,
    and also for an empty string or a zero cost.  The updated message is
    written back. *)
Theorem log_message_event_attempt_and_fields (message : Message.t)
    (status event_type : string) (provider_status : option string)
    (provider_response : option (gmap string PyVal))
    (error_code error_message external_message_id : option string)
    (cost : option Q) (processing_duration queue_item_id : option Z) (w : World) :
  ∃ log m' w',
    log_message_event message status event_type provider_status provider_response
      error_code error_message external_message_id cost processing_duration
      queue_item_id w = (Ok (log, m'), w')
    ∧ MessageLog.attempt_number log = log_count (db w) message + 1
    ∧ MessageLog.message_id log = Message.id_message message
    ∧ message_logs (db w') = (message_logs (db w) ++ [log])%list
    ∧ log_count (db w') message = log_count (db w) message + 1
    ∧ Message.delivery_attempts m' = MessageLog.attempt_number log
    ∧ Message.statut_livraison m' = status
    ∧ Message.external_message_id m'
      = (if truthy external_message_id then external_message_id
         else Message.external_message_id message)
    ∧ Message.error_message m'
      = (if truthy error_message then error_message
         else Message.error_message message)
    ∧ Message.cost m' = (if truthy cost then cost else Message.cost message)
    ∧ messages (db w')
      = (λ r, if Message.id_message r =? Message.id_message message then m' else r)
          <$> messages (db w).
Proof.
  eexists _, _, _. split; [apply log_message_event_run|].
  simpl. split; [reflexivity|]. split; [reflexivity|]. split; [reflexivity|].
  split.
  { unfold log_count. simpl. rewrite List.filter_app, length_app. simpl.
    rewrite Z.eqb_refl. simpl. lia. }
  rewrite folded_id. unfold folded.
  repeat match goal with
         | |- context [if ?b then _ else _] => destruct b
         end; repeat split.
Qed.

(** ** update_delivery_status *)

Lemma extract_cost_returns (float_of_string : string → option Q)
    (provider_response : gmap string PyVal) (w : World) :
  ∃ c, _extract_cost_from_response float_of_string provider_response w = (Ok c, w).
Proof.
  unfold _extract_cost_from_response, py_float. run_M.
  destruct (truthy _); [|eauto].
  destruct (dict_get _ _) as [| n | s]; simpl; eauto.
  destruct (float_of_string s); simpl; eauto.
Qed.

(** C2, the claim as stated fails.  Three receipts for the external id SM1:
    delivered, delivered again, then failed.  The second delivered receipt
    keeps [final_status] and moves [delivery_timestamp] to its own time; the
    failed receipt changes the [final_status] that was set. *)
Lemma final_status_and_delivery_timestamp_overwritten :
  let receipt status w := (update_delivery_status (λ _, None) "SM1" status ∅ w).2 in
  let w1 := receipt "delivered" ex_message_world in
  let w2 := receipt "delivered" w1 in
  let w3 := receipt "failed" w2 in
  Message.final_status <$> messages (db w1) = [Some "delivered"]
  ∧ Message.delivery_timestamp <$> messages (db w1) = [Some 1000001000]
  ∧ Message.final_status <$> messages (db w2) = [Some "delivered"]
  ∧ Message.delivery_timestamp <$> messages (db w2) = [Some 1000004000]
  ∧ Message.final_status <$> messages (db w3) = [Some "failed"].
Proof. vm_compute. repeat split. Qed.

(** C2 (amended).  [log_message_event] sets [final_status] to the status of
    the event whenever that status is delivered, failed or bounced, also when
    a [final_status] was set before, and leaves it as it was for any other
    status; it sets [delivery_timestamp] to the time of the event whenever the
    status is delivered, also when a timestamp was set before, and leaves it
    as it was otherwise.  [update_delivery_status] on the external id of a
    stored message returns true and does the same to the stored message with
    the mapped provider status: a repeated delivered receipt keeps
    [final_status] = delivered and takes the time of the latest receipt. *)
Theorem final_status_follows_latest_terminal_event :
  (∀ (message : Message.t) (status event_type : string)
     (provider_status : option string) (provider_response : option (gmap string PyVal))
     (error_code error_message external_message_id : option string)
     (cost : option Q) (processing_duration queue_item_id : option Z) (w : World),
     ∃ log m' w',
       log_message_event message status event_type provider_status provider_response
         error_code error_message external_message_id cost processing_duration
         queue_item_id w = (Ok (log, m'), w')
       ∧ Message.final_status m'
         = (if str_in status ["delivered"; "failed"; "bounced"] then Some status
            else Message.final_status message)
       ∧ Message.delivery_timestamp m'
         = (if String.eqb status "delivered" then Some (clock w 1%nat)
            else Message.delivery_timestamp message))
  ∧ (∀ (float_of_string : string → option Q) (external_message_id provider_status : string)
       (provider_response : gmap string PyVal) (w : World) (message : Message.t),
       List.find (λ m, bool_decide (Message.external_message_id m = Some external_message_id))
         (messages (db w)) = Some message →
       ∃ m' w',
         update_delivery_status float_of_string external_message_id provider_status
           provider_response w = (Ok true, w')
         ∧ List.find (λ r, Message.id_message r =? Message.id_message message)
             (messages (db w')) = Some m'
         ∧ Message.external_message_id m' = Some external_message_id
         ∧ Message.statut_livraison m' = _map_provider_status provider_status
         ∧ Message.final_status m'
           = (if str_in (_map_provider_status provider_status)
                   ["delivered"; "failed"; "bounced"]
              then Some (_map_provider_status provider_status)
              else Message.final_status message)
         ∧ Message.delivery_timestamp m'
           = (if String.eqb (_map_provider_status provider_status) "delivered"
              then Some (clock w 1%nat)
              else Message.delivery_timestamp message)).
Proof.
  split.
  - intros. eexists _, _, _. split; [apply log_message_event_run|].
    unfold folded. simpl.
    destruct (String.eqb status "delivered") eqn:Ed; simpl.
    + destruct (truthy external_message_id), (truthy error_message), (truthy cost);
        split; reflexivity.
    + destruct (String.eqb status "failed" || (String.eqb status "bounced" || false));
        destruct (truthy external_message_id), (truthy error_message), (truthy cost);
        split; reflexivity.
  - intros fos ext ps pr w message Hfind.
    unfold update_delivery_status. run_M. rewrite Hfind.
    destruct (extract_cost_returns fos pr w) as [c Hc]. rewrite Hc.
    rewrite log_message_event_run. simpl.
    apply find_some in Hfind as [Hin Hext].
    apply bool_decide_eq_true in Hext.
    destruct (find_message_by_id_exists (messages (db w)) message) as [m0 Hm0];
      [by apply list_elem_of_In|].
    eexists _, _. split; [reflexivity|]. simpl.
    rewrite folded_id.
    split; [apply (find_message_updated _ _ m0); [exact Hm0 | apply folded_id]|].
    unfold folded. simpl.
    destruct (String.eqb (_map_provider_status ps) "delivered") eqn:Ed; simpl.
    + destruct (truthy (py_text _)), (truthy c); repeat split; assumption.
    + destruct (String.eqb (_map_provider_status ps) "failed"
                || (String.eqb (_map_provider_status ps) "bounced" || false));
        destruct (truthy (py_text _)), (truthy c); repeat split; assumption.
Qed.

(** A second delivered receipt for SM1, after a first one. *)
Lemma final_status_follows_latest_terminal_event_witness :
  let w1 := (update_delivery_status (λ _, None) "SM1" "delivered" ∅ ex_message_world).2 in
  ∃ message,
    List.find (λ m, bool_decide (Message.external_message_id m = Some "SM1"))
      (messages (db w1)) = Some message
    ∧ Message.final_status message = Some "delivered"
    ∧ Message.delivery_timestamp message = Some 1000001000
    ∧ ∃ m' w2,
        update_delivery_status (λ _, None) "SM1" "delivered" ∅ w1 = (Ok true, w2)
        ∧ List.find (λ r, Message.id_message r =? Message.id_message message)
            (messages (db w2)) = Some m'
        ∧ Message.final_status m' = Some "delivered"
        ∧ Message.delivery_timestamp m' = Some (clock w1 1%nat).
Proof.
  intros w1.
  destruct (List.find (λ m, bool_decide (Message.external_message_id m = Some "SM1"))
              (messages (db w1))) as [message|] eqn:Hfind; [|vm_compute in Hfind; discriminate].
  exists message.
  split; [reflexivity|].
  assert (Message.final_status message = Some "delivered"
          ∧ Message.delivery_timestamp message = Some 1000001000) as [Hf Ht].
  { vm_compute in Hfind. injection Hfind as <-. split; reflexivity. }
  split; [exact Hf|]. split; [exact Ht|].
  destruct final_status_follows_latest_terminal_event as [_ Hupdate].
  destruct (Hupdate (λ _, None) "SM1" "delivered" ∅ w1 message Hfind)
    as (m' & w2 & Hrun & Hrow & _ & _ & Hfinal & Htime).
  exists m', w2. split; [exact Hrun|]. split; [exact Hrow|].
  split; [exact Hfinal | exact Htime].
Defined.

(** ** Provider status mapping *)

(** C8, the claim as stated fails.  In the send path of the dispatcher the
    provider status read becomes sent (not delivered) and an unlisted status
    such as accepted becomes sent (it is not passed through); in the receipt
    path the lookup is on the lower-cased status, so QUEUED becomes sent (it
    is not passed through either). *)
Lemma provider_status_mapping_paths_differ :
  send_internal_status "read" = "sent"
  ∧ _map_provider_status "read" = "delivered"
  ∧ send_internal_status "accepted" = "sent"
  ∧ _map_provider_status "accepted" = "accepted"
  ∧ _map_provider_status "QUEUED" = "sent".
Proof. vm_compute. repeat split. Qed.

Lemma twilio_mapping_other (l : string) :
  str_in l ["queued"; "sending"; "sent"; "delivered"; "failed"; "undelivered"; "read"]
    = false →
  twilio_mapping !! l = None.
Proof.
  unfold str_in. simpl. rewrite !orb_false_iff.
  intros (H1 & H2 & H3 & H4 & H5 & H6 & H7 & _).
  apply String.eqb_neq in H1, H2, H3, H4, H5, H6, H7.
  unfold twilio_mapping.
  rewrite !lookup_insert_ne by congruence. apply lookup_empty.
Qed.

(** C8 (amended).  The receipt path, [_map_provider_status], looks the
    lower-cased provider status up: queued, sending, sent give sent; delivered
    and read give delivered; failed and undelivered give failed; a status
    whose lower-case form is none of these is passed through unchanged.  The
    send path of the dispatcher compares the status as it is: queued and
    sending give sent; delivered gives delivered; failed and undelivered give
    failed; every other status (sent, read and any unlisted one) gives sent. *)
Theorem provider_status_mapping (s : string) :
  ((str_in (lower s) ["queued"; "sending"; "sent"] = true →
      _map_provider_status s = "sent")
   ∧ (str_in (lower s) ["delivered"; "read"] = true →
      _map_provider_status s = "delivered")
   ∧ (str_in (lower s) ["failed"; "undelivered"] = true →
      _map_provider_status s = "failed")
   ∧ (str_in (lower s)
        ["queued"; "sending"; "sent"; "delivered"; "failed"; "undelivered"; "read"]
        = false →
      _map_provider_status s = s))
  ∧ ((str_in s ["queued"; "sending"] = true → send_internal_status s = "sent")
     ∧ (s = "delivered" → send_internal_status s = "delivered")
     ∧ (str_in s ["failed"; "undelivered"] = true → send_internal_status s = "failed")
     ∧ (str_in s ["queued"; "sending"; "delivered"; "failed"; "undelivered"] = false →
        send_internal_status s = "sent")).
Proof.
  split.
  - unfold _map_provider_status. generalize (lower s) as l. intros l.
    unfold str_in. simpl.
    repeat split; intros H.
    4: { rewrite twilio_mapping_other; [reflexivity | exact H]. }
    all: repeat (apply orb_true_iff in H as [H|H]); try discriminate;
      apply String.eqb_eq in H; subst l; reflexivity.
  - unfold send_internal_status, str_in. simpl.
    repeat split.
    + intros H. rewrite orb_false_r in H. unfold orb in *.
      destruct (String.eqb s "queued"); [reflexivity|]. rewrite H. reflexivity.
    + intros ->. reflexivity.
    + intros H. repeat (apply orb_true_iff in H as [H|H]); try discriminate;
        apply String.eqb_eq in H; subst s; reflexivity.
    + rewrite !orb_false_iff. intros (-> & -> & -> & -> & -> & _). reflexivity.
Qed.

(** ** get_campaign_message_stats *)

Lemma inject_nat_nonzero {A} (l : list A) :
  l ≠ [] → (Qnum (inject_Z (Z.of_nat (length l))) =? 0) = false.
Proof. destruct l; [congruence|]. intros _. simpl. reflexivity. Qed.

Lemma py_div_nonzero (x y : Q) (w : World) :
  (Qnum y =? 0) = false → py_div x y w = (Ok (x / y)%Q, w).
Proof. intros H. unfold py_div. rewrite H. reflexivity. Qed.

(** The two divisions by the number of messages and the division by the
    number of delivered messages are never by zero: the method returns for
    every campaign and every database, and changes nothing. *)
Lemma get_campaign_message_stats_returns (campaign_id : Z) (w : World) :
  ∃ stats, get_campaign_message_stats campaign_id w = (Ok stats, w).
Proof.
  unfold get_campaign_message_stats, mbind, M_bind, mret, M_ret, get_db.
  cbv beta iota zeta.
  destruct (List.filter _ (messages (db w))) as [|m msgs] eqn:Hmsgs.
  { eexists. reflexivity. }
  cbn [truthy truthy_list negb].
  rewrite !py_div_nonzero by (apply inject_nat_nonzero; discriminate).
  destruct (List.filter (λ m, is_set (Message.delivery_timestamp m)) (m :: msgs))
    as [|dm dms] eqn:Hdel.
  - eexists. reflexivity.
  - cbn [truthy truthy_list].
    rewrite py_div_nonzero by (apply inject_nat_nonzero; discriminate).
    eexists. reflexivity.
Qed.

(** C10.  For a campaign that has no message row,
    [get_campaign_message_stats] returns, without raising, the statistics
    with [total_messages] 0, empty [status_breakdown] and [error_summary], and
    [delivery_rate], [average_delivery_time], [total_cost], [retry_rate] all
    0: the method returns before any division. *)
Theorem get_campaign_message_stats_empty (campaign_id : Z) (w : World) :
  (∀ m, m ∈ messages (db w) → Message.id_campagne m ≠ Some campaign_id) →
  get_campaign_message_stats campaign_id w
  = (Ok (mkCampaignStats 0 ∅ 0%Q 0%Q 0%Q 0%Q ∅), w).
Proof.
  intros Hnone. unfold get_campaign_message_stats. run_M.
  assert (List.filter (λ m, bool_decide (Message.id_campagne m = Some campaign_id))
            (messages (db w)) = []) as ->; [|reflexivity].
  induction (messages (db w)) as [|m l IH]; [reflexivity|].
  simpl. rewrite bool_decide_eq_false_2.
  - apply IH. intros m' Hm'. apply Hnone. by right.
  - apply Hnone. by left.
Qed.

(** Campaign 2 has no message in [ex_message_world]. *)
Lemma get_campaign_message_stats_empty_witness :
  (∀ m, m ∈ messages (db ex_message_world) → Message.id_campagne m ≠ Some 2)
  ∧ get_campaign_message_stats 2 ex_message_world
    = (Ok (mkCampaignStats 0 ∅ 0%Q 0%Q 0%Q 0%Q ∅), ex_message_world).
Proof.
  assert (∀ m, m ∈ messages (db ex_message_world) → Message.id_campagne m ≠ Some 2) as H.
  { intros m Hm. apply list_elem_of_In in Hm. simpl in Hm.
    destruct Hm as [<- | []]. discriminate. }
  split; [exact H|]. apply (get_campaign_message_stats_empty 2 ex_message_world H).
Defined.

(** ** process_sms_batch *)

(** No keyword the dispatcher passes to [mark_failed] or [mark_sent] lets the
    call go through: [queue_item_id] names no parameter of either method. *)
Lemma call_mark_failed_queue_item_id (v e p : PyObj) (w : World) :
  call_mark_failed [("queue_item_id", v); ("error_message", e); ("is_permanent", p)] w
  = (Raise (TypeError
       "SMSQueueService.mark_failed() got an unexpected keyword argument 'queue_item_id'"),
     w).
Proof. reflexivity. Qed.

Lemma call_mark_sent_queue_item_id (v e p : PyObj) (w : World) :
  call_mark_sent [("queue_item_id", v); ("external_message_id", e); ("provider_response", p)] w
  = (Raise (TypeError
       "SMSQueueService.mark_sent() got an unexpected keyword argument 'queue_item_id'"),
     w).
Proof. reflexivity. Qed.

(** One turn of the loop on an item whose id is not 0: [mark_processing] is
    given the id, not a list; the handler of that [TypeError] calls
    [mark_failed] with keywords it does not have, and the second [TypeError]
    leaves the loop.  No row has changed. *)
Lemma process_item_raises (settings : Settings) (float_of_string : string → option Q)
    (send_sms : string → string → string → Result (gmap string PyVal))
    (item : SMSQueue.t) (counts : Z * Z) (w : World) :
  SMSQueue.id item ≠ 0 →
  ∃ w', process_item settings float_of_string send_sms item counts w
        = (Raise (TypeError
             "SMSQueueService.mark_failed() got an unexpected keyword argument 'queue_item_id'"),
           w')
        ∧ db w' = db w.
Proof.
  intros Hid. unfold process_item, send_prologue, mark_processing. run_M.
  assert (truthy (ObjVal (VInt (SMSQueue.id item))) = true) as ->.
  { change (negb (SMSQueue.id item =? 0) = true).
    apply negb_true_iff, Z.eqb_neq, Hid. }
  simpl. unfold send_handler. run_M.
  eexists. split; reflexivity.
Qed.

(** C9 (the code departs from the claim).  The claim: one dispatcher pass over
    the single submitted item leaves the queue row sent with external id SM1,
    a message row, two log rows, and returns processed = 1, sent = 1,
    failed = 0.  Here the pass is run on that queue with that carrier: it
    returns the dictionary of the outer handler, status error, without
    tallies; the queue row is still pending with no external id, and there is
    no message row and no log row. *)
Theorem process_sms_batch_happy_path_fails :
  let run := process_sms_batch ex_settings (λ _, None) (λ _, None) ex_send_sms
               ex_submitted_world in
  (SMSQueue.id <$> sms_queue (db ex_submitted_world) = [1]
   ∧ SMSQueue.status <$> sms_queue (db ex_submitted_world) = ["pending"]
   ∧ SMSQueue.priority <$> sms_queue (db ex_submitted_world) = [5]
   ∧ SMSQueue.max_attempts <$> sms_queue (db ex_submitted_world) = [3])
  ∧ run.1 = Ok (<["status" := VStr "error"]>
                (<["message" := VStr "SMSQueueService.mark_failed() got an unexpected keyword argument 'queue_item_id'"]> ∅))
  ∧ SMSQueue.status <$> sms_queue (db run.2) = ["pending"]
  ∧ SMSQueue.external_message_id <$> sms_queue (db run.2) = [None]
  ∧ messages (db run.2) = []
  ∧ message_logs (db run.2) = [].
Proof. vm_compute. repeat split. Qed.

(** * Further properties *)

(** ** The queue service *)

Lemma leased_are_pending_rows (limit : Z) (order : bool) (w w' : World)
    (items : list SMSQueue.t) :
  get_pending_messages limit order w = (Ok items, w') →
  db w' = db w
  ∧ ∀ q, q ∈ items → q ∈ sms_queue (db w) ∧ SMSQueue.status q = "pending".
Proof.
  unfold get_pending_messages. run_M.
  destruct (limit <? 0); [discriminate|].
  intros [= <- <-]. split; [reflexivity|].
  intros q Hq. apply (subseteq_take (Z.to_nat limit)) in Hq.
  assert (q ∈ List.filter
            (λ q, String.eqb (SMSQueue.status q) "pending"
                  && sql_le (SMSQueue.scheduled_at q) (clock w 0%nat)
                  && (is_null (SMSQueue.next_retry_at q)
                      || sql_le (SMSQueue.next_retry_at q) (clock w 1%nat)))
            (sms_queue (db w))) as Hsel.
  { destruct order; rewrite merge_sort_Permutation in Hq; exact Hq. }
  apply list_elem_of_In, filter_In in Hsel as [Hin Hsel].
  split; [by apply list_elem_of_In|].
  apply andb_true_iff in Hsel as [Hsel _].
  apply andb_true_iff in Hsel as [Hst _].
  by apply String.eqb_eq.
Qed.


(** X1.  [cancel_message] always returns; it returns true exactly when the
    item exists and is pending or processing.  On true the stored item is the
    former one with status cancelled, the reason as error message and
    [processed_at] the clock reading; on false the world is as it was. *)
Theorem cancel_message_spec (i : Z) (reason : string) (w : World) :
  ∃ b w',
    cancel_message i reason w = (Ok b, w')
    ∧ (b = true ↔
       ∃ q, List.find (λ r, SMSQueue.id r =? i) (sms_queue (db w)) = Some q
            ∧ (SMSQueue.status q = "pending" ∨ SMSQueue.status q = "processing"))
    ∧ (b = false → w' = w)
    ∧ (b = true →
       ∃ q q',
         List.find (λ r, SMSQueue.id r =? i) (sms_queue (db w)) = Some q
         ∧ q' = SMSQueue.set_processed_at (Some (clock w 0%nat))
                  (SMSQueue.set_error_message (Some reason)
                     (SMSQueue.set_status "cancelled" q))
         ∧ List.find (λ r, SMSQueue.id r =? i) (sms_queue (db w')) = Some q'
         ∧ sms_queue (db w')
           = (λ r, if SMSQueue.id r =? i then q' else r) <$> sms_queue (db w)
         ∧ messages (db w') = messages (db w)
         ∧ message_logs (db w') = message_logs (db w)).
Proof.
  unfold cancel_message, commit_queue_item. run_M.
  destruct (List.find _ _) as [q|] eqn:Hfind.
  - destruct (find_some_id _ _ _ Hfind) as [Hid _].
    destruct (String.eqb_spec (SMSQueue.status q) "pending") as [Hf|Hf];
      [|destruct (String.eqb_spec (SMSQueue.status q) "processing") as [Hr|Hr]];
      simpl.
    1,2: eexists true, _; split; [reflexivity|]; simpl;
         (split; [split; [intros _; exists q; split; [reflexivity | tauto] | reflexivity]|]);
         (split; [discriminate|]); intros _;
         eexists q, _; split; [reflexivity|]; split; [reflexivity|];
         rewrite Hid;
         (split; [apply (find_id_updated _ _ q); [exact Hfind | exact Hid]|]);
         repeat split.
    eexists false, _. split; [reflexivity|].
    split; [|split; [reflexivity | discriminate]].
    split; [discriminate|]. intros (q0 & [= <-] & [? | ?]); contradiction.
  - eexists false, _. split; [reflexivity|].
    split; [|split; [reflexivity | discriminate]].
    split; [discriminate|]. intros (q0 & [=] & _).
Qed.




(** X3.  A lease excludes.  [mark_processing] on a list of items turns the
    pending rows with those ids into processing rows stamped with the clock
    reading, leaves every other row as it is, and returns the rows with those
    ids; a [get_pending_messages] that follows returns none of them. *)
Theorem mark_processing_excludes (l : list SMSQueue.t) (w : World) :
  ∃ rows w1,
    mark_processing (ObjItems l) w = (Ok rows, w1)
    ∧ (∀ r, r ∈ rows → z_in (SMSQueue.id r) (SMSQueue.id <$> l) = true
                       ∧ SMSQueue.status r ≠ "pending")
    ∧ (∀ r, r ∈ sms_queue (db w) →
         z_in (SMSQueue.id r) (SMSQueue.id <$> l) = false
         ∨ SMSQueue.status r ≠ "pending" →
         r ∈ sms_queue (db w1))
    ∧ (∀ r, r ∈ sms_queue (db w) →
         z_in (SMSQueue.id r) (SMSQueue.id <$> l) = true →
         SMSQueue.status r = "pending" →
         l ≠ [] →
         SMSQueue.set_last_attempt_at (Some (clock w 0%nat))
           (SMSQueue.set_status "processing" r) ∈ rows)
    ∧ (∀ limit order items w2,
         get_pending_messages limit order w1 = (Ok items, w2) →
         ∀ q, q ∈ items → z_in (SMSQueue.id q) (SMSQueue.id <$> l) = false).
Proof.
  unfold mark_processing.
  destruct l as [|x l].
  { exists [], w. split; [reflexivity|].
    split; [intros r Hr; by apply elem_of_nil in Hr|].
    split; [auto|]. split; [congruence|]. reflexivity. }
  remember (x :: l) as items eqn:Hitems.
  assert (truthy (ObjItems items) = true) as -> by (subst; reflexivity).
  run_M. clear Hitems x l.
  set (ids := SMSQueue.id <$> items).
  set (lease := λ r : SMSQueue.t,
         if z_in (SMSQueue.id r) ids && String.eqb (SMSQueue.status r) "pending"
         then SMSQueue.set_last_attempt_at (Some (clock w 0%nat))
                (SMSQueue.set_status "processing" r)
         else r).
  assert (∀ r, r ∈ lease <$> sms_queue (db w) →
               z_in (SMSQueue.id r) ids = true → SMSQueue.status r ≠ "pending")
    as Hleased.
  { intros r Hr Hid. apply list_elem_of_fmap in Hr as (r0 & -> & _).
    unfold lease in *.
    destruct (z_in (SMSQueue.id r0) ids) eqn:E0; simpl in *.
    - destruct (String.eqb_spec (SMSQueue.status r0) "pending"); simpl; congruence.
    - congruence. }
  eexists _, _. split; [reflexivity|]. simpl.
  split; [|split; [|split]].
  - intros r Hr. apply list_elem_of_In, filter_In in Hr as [Hin Hid].
    split; [exact Hid|]. apply Hleased; [by apply list_elem_of_In | exact Hid].
  - intros r Hr Hcase.
    apply list_elem_of_fmap. exists r. split; [|exact Hr].
    unfold lease. destruct Hcase as [-> | Hst]; [reflexivity|].
    destruct (String.eqb_spec (SMSQueue.status r) "pending"); [contradiction|].
    by rewrite andb_false_r.
  - intros r Hr Hid Hst _.
    apply list_elem_of_In, filter_In. split.
    + apply list_elem_of_In, list_elem_of_fmap. exists r. split; [|exact Hr].
      unfold lease. rewrite Hid, Hst. reflexivity.
    + exact Hid.
  - intros limit order got w2 Hlease q Hq.
    destruct (leased_are_pending_rows _ _ _ _ _ Hlease) as [_ Hpending].
    destruct (Hpending q Hq) as [Hin Hpend]. simpl in Hin.
    destruct (z_in (SMSQueue.id q) ids) eqn:E; [|reflexivity].
    exfalso. exact (Hleased q Hin E Hpend).
Qed.

(** X4.  Nothing eligible is held back.  A row is eligible at a time when it
    is pending, its [scheduled_at] is set and not after that time, and its
    [next_retry_at] is NULL or not after that time.  With a limit that is at
    least the number of rows and a clock that does not run backwards,
    [get_pending_messages] returns every row that is eligible at its first
    clock reading, in either ordering.  A row whose [scheduled_at] is NULL is
    not eligible and is never returned: every returned row has a
    [scheduled_at] that has come. *)
Theorem get_pending_messages_complete (limit : Z) (order : bool) (w : World) :
  Z.of_nat (length (sms_queue (db w))) ≤ limit →
  clock w 0%nat ≤ clock w 1%nat →
  ∃ items w',
    get_pending_messages limit order w = (Ok items, w')
    ∧ (∀ q, q ∈ sms_queue (db w) → eligible (clock w 0%nat) q = true → q ∈ items)
    ∧ (∀ q s, q ∈ sms_queue (db w) →
         SMSQueue.status q = "pending" →
         SMSQueue.scheduled_at q = Some s → s ≤ clock w 0%nat →
         (SMSQueue.next_retry_at q = None
          ∨ ∃ r, SMSQueue.next_retry_at q = Some r ∧ r ≤ clock w 0%nat) →
         q ∈ items)
    ∧ (∀ q, q ∈ items →
         ∃ s, SMSQueue.scheduled_at q = Some s ∧ s ≤ clock w 0%nat).
Proof.
  intros Hlimit Hclock. unfold get_pending_messages. run_M.
  destruct (Z.ltb_spec limit 0); [lia|].
  eexists _, _. split; [reflexivity|].
  set (sel := λ q : SMSQueue.t,
         String.eqb (SMSQueue.status q) "pending"
         && sql_le (SMSQueue.scheduled_at q) (clock w 0%nat)
         && (is_null (SMSQueue.next_retry_at q)
             || sql_le (SMSQueue.next_retry_at q) (clock w 1%nat))).
  assert (length (List.filter sel (sms_queue (db w))) ≤ Z.to_nat limit)%nat as Hlen.
  { pose proof (List.filter_length_le sel (sms_queue (db w))). lia. }
  assert (∀ q, q ∈ take (Z.to_nat limit)
                     (if order
                      then merge_sort priority_then_created
                             (List.filter sel (sms_queue (db w)))
                      else merge_sort created_only
                             (List.filter sel (sms_queue (db w))))
               ↔ q ∈ List.filter sel (sms_queue (db w))) as Hitems.
  { intros q. destruct order;
      rewrite take_ge by (rewrite merge_sort_Permutation; exact Hlen);
      by rewrite merge_sort_Permutation. }
  assert (∀ q, q ∈ sms_queue (db w) → eligible (clock w 0%nat) q = true →
               q ∈ List.filter sel (sms_queue (db w))) as Hcomplete.
  { intros q Hq Hel.
    apply list_elem_of_In, filter_In. split; [by apply list_elem_of_In|].
    pose proof (eligible_mono _ _ q Hclock Hel) as Hel'.
    unfold eligible in *. unfold sel.
    apply andb_true_iff in Hel as [Hel _]. apply andb_true_iff in Hel' as [_ Hretry].
    rewrite Hel, Hretry. reflexivity. }
  split; [|split].
  - intros q Hq Hel. apply Hitems. by apply Hcomplete.
  - intros q s Hq Hst Hs Hdue Hretry. apply Hitems, Hcomplete; [exact Hq|].
    unfold eligible. rewrite Hst, Hs. simpl.
    apply andb_true_iff. split; [by apply Z.leb_le|].
    destruct Hretry as [-> | (r & -> & Hr)]; [reflexivity|].
    simpl. by apply Z.leb_le.
  - intros q Hq. apply Hitems, list_elem_of_In, filter_In in Hq as [_ Hsel].
    unfold sel in Hsel.
    apply andb_true_iff in Hsel as [Hsel _].
    apply andb_true_iff in Hsel as [_ Hs].
    destruct (SMSQueue.scheduled_at q) as [s|]; [|discriminate Hs].
    exists s. split; [reflexivity|]. by apply Z.leb_le.
Qed.

Lemma get_pending_messages_complete_witness :
  (Z.of_nat (length (sms_queue (db ex_queue_world))) ≤ 5
   ∧ clock ex_queue_world 0%nat ≤ clock ex_queue_world 1%nat)
  ∧ ∃ items w',
      get_pending_messages 5 false ex_queue_world = (Ok items, w')
      ∧ ∀ q, q ∈ sms_queue (db ex_queue_world) →
             eligible (clock ex_queue_world 0%nat) q = true → q ∈ items.
Proof.
  assert (Z.of_nat (length (sms_queue (db ex_queue_world))) ≤ 5) as H1
    by (simpl; lia).
  assert (clock ex_queue_world 0%nat ≤ clock ex_queue_world 1%nat) as H2
    by (unfold ex_queue_world, ex_clock; simpl; lia).
  split; [split; assumption|].
  destruct (get_pending_messages_complete 5 false ex_queue_world H1 H2)
    as (items & w' & Hrun & Hall & _).
  exists items, w'. split; assumption.
Defined.

(** X5.  Retry exhaustion.  After [n] ≥ 1 failures in a row of an item, each
    of them retryable, the item has [n] more attempts and is pending as long
    as its attempts are below [max_attempts], failed from then on: an item
    that starts with no attempt is retried exactly [max_attempts - 1] times. *)
Theorem fail_repeatedly_exhausts (n : nat) (item : SMSQueue.t) (msg : string)
    (w : World) :
  (1 ≤ n)%nat →
  ∃ q w',
    fail_repeatedly n item msg w = (Ok q, w')
    ∧ SMSQueue.id q = SMSQueue.id item
    ∧ SMSQueue.max_attempts q = SMSQueue.max_attempts item
    ∧ SMSQueue.attempts q = SMSQueue.attempts item + Z.of_nat n
    ∧ SMSQueue.status q
      = (if SMSQueue.attempts item + Z.of_nat n <? SMSQueue.max_attempts item
         then "pending" else "failed")
    ∧ SMSQueue.processed_at q = SMSQueue.processed_at item.
Proof.
  revert item w. induction n as [|n IH]; intros item w Hn; [lia|].
  simpl. unfold mbind, M_bind.
  assert (∀ q' w1,
            mark_failed item msg true w = (Ok q', w1) →
            SMSQueue.id q' = SMSQueue.id item →
            SMSQueue.max_attempts q' = SMSQueue.max_attempts item →
            SMSQueue.attempts q' = SMSQueue.attempts item + 1 →
            SMSQueue.status q'
            = (if SMSQueue.attempts item + 1 <? SMSQueue.max_attempts item
               then "pending" else "failed") →
            SMSQueue.processed_at q' = SMSQueue.processed_at item →
            ∃ q w',
              (let (r, w'0) := mark_failed item msg true w in
               match r with
               | Ok a => fail_repeatedly n a msg w'0
               | Raise e => (Raise e, w'0)
               end) = (Ok q, w')
              ∧ SMSQueue.id q = SMSQueue.id item
              ∧ SMSQueue.max_attempts q = SMSQueue.max_attempts item
              ∧ SMSQueue.attempts q = SMSQueue.attempts item + Z.of_nat (S n)
              ∧ SMSQueue.status q
                = (if SMSQueue.attempts item + Z.of_nat (S n)
                      <? SMSQueue.max_attempts item
                   then "pending" else "failed")
              ∧ SMSQueue.processed_at q = SMSQueue.processed_at item) as Hstep.
  { intros q' w1 Hrun Hid Hmax Hatt Hst Hproc. rewrite Hrun.
    destruct n as [|n].
    - exists q', w1. split; [reflexivity|].
      change (Z.of_nat 1) with 1. auto.
    - destruct (IH q' w1) as (q & w' & Hrun' & Hid' & Hmax' & Hatt' & Hst' & Hproc');
        [lia|].
      exists q, w'. split; [exact Hrun'|].
      rewrite Hid', Hmax', Hatt', Hst', Hproc', Hid, Hmax, Hatt, Hproc.
      rewrite (Nat2Z.inj_succ (S n)).
      replace (SMSQueue.attempts item + 1 + Z.of_nat (S n))
        with (SMSQueue.attempts item + Z.succ (Z.of_nat (S n))) by lia.
      auto. }
  destruct (Z.ltb_spec (SMSQueue.attempts item + 1) (SMSQueue.max_attempts item))
    as [Hlt | Hge].
  - eapply Hstep; [apply (mark_failed_retry item msg w Hlt) | | | | |];
      try reflexivity.
  - eapply Hstep; [apply (mark_failed_final item msg true w (or_intror Hge)) | | | | |];
      try reflexivity.
Qed.

(** [ex_item] has max_attempts 3: pending after two failures, failed after
    the third. *)
Lemma fail_repeatedly_exhausts_witness :
  ((1 ≤ 2)%nat ∧ (1 ≤ 3)%nat)
  ∧ (∃ q w', fail_repeatedly 2 ex_item "network" ex_world = (Ok q, w')
             ∧ SMSQueue.attempts q = 2 ∧ SMSQueue.status q = "pending")
  ∧ (∃ q w', fail_repeatedly 3 ex_item "network" ex_world = (Ok q, w')
             ∧ SMSQueue.attempts q = 3 ∧ SMSQueue.status q = "failed").
Proof.
  split; [split; lia|]. split.
  - destruct (fail_repeatedly_exhausts 2 ex_item "network" ex_world)
      as (q & w' & Hrun & _ & _ & Hatt & Hst & _); [lia|].
    exists q, w'. split; [exact Hrun|]. split; [exact Hatt | exact Hst].
  - destruct (fail_repeatedly_exhausts 3 ex_item "network" ex_world)
      as (q & w' & Hrun & _ & _ & Hatt & Hst & _); [lia|].
    exists q, w'. split; [exact Hrun|]. split; [exact Hatt | exact Hst].
Defined.

(** X6.  An operator's retry after a final failure.  For an item stored in
    the queue, a final [mark_failed] followed by [reset_for_retry] of its id
    succeeds and leaves the stored item pending with the failed attempt still
    counted, no retry time and no error message.  It is then eligible for
    lease at a time exactly when its [scheduled_at] is set and not after that
    time; an item whose [scheduled_at] is NULL is eligible at no time. *)
Theorem failed_then_reset (item q0 : SMSQueue.t) (msg : string)
    (should_retry : bool) (w : World) :
  List.find (λ r, SMSQueue.id r =? SMSQueue.id item) (sms_queue (db w)) = Some q0 →
  should_retry = false ∨ SMSQueue.max_attempts item ≤ SMSQueue.attempts item + 1 →
  ∃ q w1 w2 q2,
    mark_failed item msg should_retry w = (Ok q, w1)
    ∧ SMSQueue.status q = "failed"
    ∧ reset_for_retry (SMSQueue.id item) w1 = (Ok true, w2)
    ∧ List.find (λ r, SMSQueue.id r =? SMSQueue.id item) (sms_queue (db w2)) = Some q2
    ∧ SMSQueue.status q2 = "pending"
    ∧ SMSQueue.attempts q2 = SMSQueue.attempts item + 1
    ∧ SMSQueue.next_retry_at q2 = None
    ∧ SMSQueue.error_message q2 = None
    ∧ ∀ t, eligible t q2
           = match SMSQueue.scheduled_at item with
             | Some s => s <=? t
             | None => false
             end.
Proof.
  intros Hfind Hfinal.
  pose proof (mark_failed_final item msg should_retry w Hfinal) as Hrun.
  cbv zeta in Hrun.
  set (q := failed_for_good item msg (clock w 0%nat)) in *.
  assert (List.find (λ r, SMSQueue.id r =? SMSQueue.id item)
            (sms_queue (write_back q (db w))) = Some q) as Hq.
  { unfold write_back. simpl.
    apply (find_id_updated _ _ q0); [exact Hfind | reflexivity]. }
  eexists q, _, _, _. split; [exact Hrun|]. split; [reflexivity|].
  unfold reset_for_retry, commit_queue_item. run_M. rewrite Hq. simpl.
  split; [reflexivity|]. simpl.
  split; [apply (find_id_updated _ _ q); [exact Hq | reflexivity]|].
  repeat split.
  intros t. unfold eligible. simpl. by rewrite andb_true_r.
Qed.

Lemma failed_then_reset_witness :
  (List.find (λ r, SMSQueue.id r =? SMSQueue.id ex_item) (sms_queue (db ex_world))
     = Some ex_item
   ∧ (false = false ∨ SMSQueue.max_attempts ex_item ≤ SMSQueue.attempts ex_item + 1))
  ∧ ∃ q w1 w2 q2,
      mark_failed ex_item "boom" false ex_world = (Ok q, w1)
      ∧ SMSQueue.status q = "failed"
      ∧ reset_for_retry (SMSQueue.id ex_item) w1 = (Ok true, w2)
      ∧ List.find (λ r, SMSQueue.id r =? SMSQueue.id ex_item) (sms_queue (db w2))
        = Some q2
      ∧ SMSQueue.status q2 = "pending"
      ∧ SMSQueue.attempts q2 = SMSQueue.attempts ex_item + 1
      ∧ SMSQueue.next_retry_at q2 = None
      ∧ SMSQueue.error_message q2 = None
      ∧ ∀ t, eligible t q2 = sql_le (SMSQueue.scheduled_at ex_item) t.
Proof.
  split; [split; [reflexivity | left; reflexivity]|].
  apply (failed_then_reset ex_item ex_item "boom" false ex_world);
    [reflexivity | left; reflexivity].
Defined.

(** ** Cleanup *)

Lemma filter_partition_length {A} (f : A → bool) (l : list A) :
  (length (List.filter f l) + length (List.filter (λ x, negb (f x)) l))%nat = length l.
Proof. induction l as [|x l IH]; simpl; [reflexivity|]. destruct (f x); simpl; lia. Qed.

(** The run of [cleanup_old_records]: one clock reading, the rows that are
    not expired kept, the references to the deleted rows set to NULL. *)
Lemma cleanup_old_records_run (days_to_keep : Z) (w : World) :
  let cutoff := clock w 0%nat - timedelta_days days_to_keep in
  let deleted := SMSQueue.id <$> List.filter (expired cutoff) (sms_queue (db w)) in
  cleanup_old_records days_to_keep w
  = (Ok (Z.of_nat (length (List.filter (expired cutoff) (sms_queue (db w))))),
     mkWorld
       (set_message_logs
          ((λ l, MessageLog.set_queue_item_id
                   (on_delete_set_null deleted (MessageLog.queue_item_id l)) l)
             <$> message_logs (db w))
          (set_messages
             ((λ m, Message.set_queue_item_id
                      (on_delete_set_null deleted (Message.queue_item_id m)) m)
                <$> messages (db w))
             (set_sms_queue
                (List.filter (λ r, negb (expired cutoff r)) (sms_queue (db w)))
                (db w))))
       (λ n, clock w (S n))).
Proof. reflexivity. Qed.

Lemma on_delete_set_null_cases (deleted : list Z) (ref : option Z) :
  on_delete_set_null deleted ref = ref
  ∨ (∃ i, ref = Some i ∧ z_in i deleted = true
          ∧ on_delete_set_null deleted ref = None).
Proof.
  destruct ref as [i|]; [|left; reflexivity].
  unfold on_delete_set_null. destruct (z_in i deleted) eqn:E; [right | left]; eauto.
Qed.

Lemma on_delete_set_null_not_deleted (deleted : list Z) (ref : option Z) (i : Z) :
  on_delete_set_null deleted ref = Some i → ref = Some i ∧ z_in i deleted = false.
Proof.
  destruct ref as [j|]; [|discriminate].
  unfold on_delete_set_null. destruct (z_in j deleted) eqn:E; [discriminate|].
  intros [= <-]. auto.
Qed.

(** X7.  [cleanup_old_records] deletes exactly the rows whose status is sent,
    failed or cancelled and whose [processed_at] is before the cutoff (the
    clock reading minus the days to keep), keeps the other rows in their
    order and returns the number of deleted rows.  A pending or processing
    row, and a row without [processed_at], is never deleted.  The messages
    and the log rows stay, with their [queue_item_id] set to NULL where it
    was the id of a deleted row (the foreign keys are ON DELETE SET NULL) and
    nothing else changed: a message or log row that refers to no deleted row
    is as it was, and afterwards none refers to the id of a deleted row. *)
Theorem cleanup_old_records_spec (days_to_keep : Z) (w : World) :
  let cutoff := clock w 0%nat - timedelta_days days_to_keep in
  let deleted := SMSQueue.id <$> List.filter (expired cutoff) (sms_queue (db w)) in
  ∃ n w',
    cleanup_old_records days_to_keep w = (Ok n, w')
    ∧ sms_queue (db w') = List.filter (λ r, negb (expired cutoff r)) (sms_queue (db w))
    ∧ n = Z.of_nat (length (sms_queue (db w))) - Z.of_nat (length (sms_queue (db w')))
    ∧ n = Z.of_nat (length (List.filter (expired cutoff) (sms_queue (db w))))
    ∧ (∀ r, r ∈ sms_queue (db w) →
         SMSQueue.status r = "pending" ∨ SMSQueue.status r = "processing"
         ∨ SMSQueue.processed_at r = None →
         r ∈ sms_queue (db w'))
    ∧ (∀ r, r ∈ sms_queue (db w') →
         r ∈ sms_queue (db w) ∧ expired cutoff r = false)
    ∧ messages (db w')
      = (λ m, Message.set_queue_item_id
                (on_delete_set_null deleted (Message.queue_item_id m)) m)
          <$> messages (db w)
    ∧ message_logs (db w')
      = (λ l, MessageLog.set_queue_item_id
                (on_delete_set_null deleted (MessageLog.queue_item_id l)) l)
          <$> message_logs (db w)
    ∧ (∀ m, m ∈ messages (db w) →
         (∀ i, Message.queue_item_id m = Some i → z_in i deleted = false) →
         m ∈ messages (db w'))
    ∧ (∀ l, l ∈ message_logs (db w) →
         (∀ i, MessageLog.queue_item_id l = Some i → z_in i deleted = false) →
         l ∈ message_logs (db w'))
    ∧ (∀ m i, m ∈ messages (db w') → Message.queue_item_id m = Some i →
         z_in i deleted = false)
    ∧ (∀ l i, l ∈ message_logs (db w') → MessageLog.queue_item_id l = Some i →
         z_in i deleted = false)
    ∧ contacts (db w') = contacts (db w)
    ∧ campaigns (db w') = campaigns (db w).
Proof.
  intros cutoff deleted.
  pose proof (cleanup_old_records_run days_to_keep w) as Hrun.
  cbv zeta in Hrun. fold cutoff in Hrun. fold deleted in Hrun.
  eexists _, _. split; [exact Hrun|].
  cbn [db sms_queue messages message_logs contacts campaigns
       set_sms_queue set_messages set_message_logs].
  split; [reflexivity|].
  split; [pose proof (filter_partition_length (expired cutoff) (sms_queue (db w))); lia|].
  split; [reflexivity|].
  split.
  { intros r Hr Hcase. apply list_elem_of_In, filter_In.
    split; [by apply list_elem_of_In|].
    unfold expired, terminal.
    destruct Hcase as [-> | [-> | ->]]; [reflexivity | reflexivity |].
    simpl. by rewrite andb_false_r. }
  split.
  { intros r Hr. apply list_elem_of_In, filter_In in Hr as [Hin Hexp].
    split; [by apply list_elem_of_In | by apply negb_true_iff]. }
  split; [reflexivity|]. split; [reflexivity|].
  split.
  { intros m Hm Hkept. apply list_elem_of_fmap. exists m. split; [|exact Hm].
    destruct (on_delete_set_null_cases deleted (Message.queue_item_id m))
      as [-> | (i & Hi & Hdel & _)].
    - by destruct m.
    - rewrite (Hkept i Hi) in Hdel. discriminate Hdel. }
  split.
  { intros l Hl Hkept. apply list_elem_of_fmap. exists l. split; [|exact Hl].
    destruct (on_delete_set_null_cases deleted (MessageLog.queue_item_id l))
      as [-> | (i & Hi & Hdel & _)].
    - by destruct l.
    - rewrite (Hkept i Hi) in Hdel. discriminate Hdel. }
  split.
  { intros m i Hm Hi. apply list_elem_of_fmap in Hm as (m0 & -> & _).
    simpl in Hi. by apply on_delete_set_null_not_deleted in Hi as [_ ?]. }
  split.
  { intros l i Hl Hi. apply list_elem_of_fmap in Hl as (l0 & -> & _).
    simpl in Hi. by apply on_delete_set_null_not_deleted in Hi as [_ ?]. }
  split; reflexivity.
Qed.

(** A sent item of long ago with its message and log row: the cleanup
    deletes the item, and the message and the log row lose their reference
    to it. *)
Lemma cleanup_old_records_sets_references_null :
  let old_item := SMSQueue.set_processed_at (Some 0) (SMSQueue.set_status "sent" ex_item) in
  let w := mkWorld (set_sms_queue [old_item] (db ex_message_world)) ex_clock in
  let d' := db (cleanup_old_records 0 w).2 in
  Message.queue_item_id <$> messages (db w) = [Some 1]
  ∧ MessageLog.queue_item_id <$> message_logs (db w) = [Some 1; Some 1]
  ∧ sms_queue d' = []
  ∧ Message.queue_item_id <$> messages d' = [None]
  ∧ MessageLog.queue_item_id <$> message_logs d' = [None; None]
  ∧ Message.id_message <$> messages d' = [1].
Proof. vm_compute. repeat split. Qed.

Lemma count_expired_by_status (cutoff : Z) (rows : list SMSQueue.t) :
  length (List.filter (expired cutoff) rows)
  = (length (List.filter (λ r, String.eqb (SMSQueue.status r) "sent"
                               && sql_lt (SMSQueue.processed_at r) cutoff) rows)
     + length (List.filter (λ r, String.eqb (SMSQueue.status r) "failed"
                                 && sql_lt (SMSQueue.processed_at r) cutoff) rows)
     + length (List.filter (λ r, String.eqb (SMSQueue.status r) "cancelled"
                                 && sql_lt (SMSQueue.processed_at r) cutoff) rows))%nat.
Proof.
  induction rows as [|r rows IH]; [reflexivity|].
  simpl. unfold expired at 1. unfold terminal, str_in. simpl.
  destruct (String.eqb_spec (SMSQueue.status r) "sent"),
    (String.eqb_spec (SMSQueue.status r) "failed"),
    (String.eqb_spec (SMSQueue.status r) "cancelled"),
    (sql_lt (SMSQueue.processed_at r) cutoff);
    simpl; try congruence; lia.
Qed.

(** X8.  The preview predicts the cleanup.  [get_cleanup_preview] changes
    nothing, its [total_records] is the sum of its three counts, and it is
    the number of rows [cleanup_old_records] deletes when run for the same
    number of days at the same clock reading. *)
Theorem cleanup_preview_predicts (days : Z) (w : World) :
  ∃ preview w1 n w2 sent failed cancelled,
    get_cleanup_preview days w = (Ok preview, w1)
    ∧ db w1 = db w
    ∧ cleanup_old_records days w = (Ok n, w2)
    ∧ preview !! "sent_records" = Some sent
    ∧ preview !! "failed_records" = Some failed
    ∧ preview !! "cancelled_records" = Some cancelled
    ∧ preview !! "total_records" = Some (sent + failed + cancelled)
    ∧ preview !! "total_records" = Some n.
Proof.
  pose proof (cleanup_old_records_run days w) as Hrun. cbv zeta in Hrun.
  unfold get_cleanup_preview. run_M.
  eexists _, _, _, _, _, _, _. split; [reflexivity|]. split; [reflexivity|].
  split; [exact Hrun|].
  split; [reflexivity|]. split; [reflexivity|]. split; [reflexivity|].
  split; [reflexivity|].
  rewrite count_expired_by_status.
  rewrite !lookup_insert_ne by discriminate. rewrite lookup_insert_eq.
  f_equal. lia.
Qed.

(** ** Queue statistics and the health check *)

Lemma histogram_lookup {A} (f : A → string) (l : list A) (acc : gmap string Z)
    (k : string) :
  default 0 (fold_left (λ acc x, count_key acc (f x)) l acc !! k)
  = default 0 (acc !! k)
    + Z.of_nat (length (List.filter (λ x, String.eqb (f x) k) l)).
Proof.
  revert acc. induction l as [|x l IH]; intros acc; simpl; [lia|].
  rewrite IH. unfold count_key.
  destruct (String.eqb_spec (f x) k) as [-> | Hne].
  - rewrite lookup_insert_eq. simpl. lia.
  - rewrite lookup_insert_ne by exact Hne. lia.
Qed.

Lemma length_filter_and_le {A} (f g : A → bool) (l : list A) :
  (length (List.filter (λ x, f x && g x) l) ≤ length (List.filter f l))%nat.
Proof.
  induction l as [|x l IH]; simpl; [lia|].
  destruct (f x), (g x); simpl; lia.
Qed.

(** The dictionary [get_queue_stats] returns, and the world it leaves. *)
Lemma get_queue_stats_run (w : World) :
  ∃ avg future,
    get_queue_stats w
    = (Ok (<["status_counts" := SByStatus (group_by_status (sms_queue (db w)))]>
           (<["priority_distribution" :=
                SByPriority
                  (group_by_priority
                     (List.filter (λ r, String.eqb (SMSQueue.status r) "pending")
                        (sms_queue (db w))))]>
           (<["avg_processing_time_seconds" := SFloat avg]>
           (<["failed_messages" := SInt (count_status "failed" (sms_queue (db w)))]>
           (<["future_scheduled" := SInt future]> ∅))))),
       mkWorld (db w) (λ n, clock w (S (S n))))
    ∧ 0 ≤ future ≤ count_status "pending" (sms_queue (db w)).
Proof.
  unfold get_queue_stats, count_status, mbind, M_bind, mret, M_ret, get_db, now.
  cbv beta iota zeta.
  eexists _, _. split; [reflexivity|].
  split; [lia|]. apply inj_le, length_filter_and_le.
Qed.

(** X9.  The queue statistics agree with the queue.  [get_queue_stats]
    changes nothing; [status_counts.get(s, 0)] is the number of rows with
    status [s], for every [s]; [failed_messages] is [status_counts.get('failed',
    0)]; and [future_scheduled] is at most [status_counts.get('pending', 0)]. *)
Theorem get_queue_stats_counts (w : World) :
  ∃ stats w' by_status future,
    get_queue_stats w = (Ok stats, w')
    ∧ db w' = db w
    ∧ stats !! "status_counts" = Some (SByStatus by_status)
    ∧ (∀ s, default 0 (by_status !! s) = count_status s (sms_queue (db w)))
    ∧ stats !! "failed_messages" = Some (SInt (default 0 (by_status !! "failed")))
    ∧ stats !! "future_scheduled" = Some (SInt future)
    ∧ 0 ≤ future ≤ default 0 (by_status !! "pending").
Proof.
  destruct (get_queue_stats_run w) as (avg & future & Hrun & Hfuture).
  assert (∀ s, default 0 (group_by_status (sms_queue (db w)) !! s)
               = count_status s (sms_queue (db w))) as Hcount.
  { intros s. unfold group_by_status, count_status.
    rewrite (histogram_lookup SMSQueue.status). rewrite lookup_empty. simpl. lia. }
  eexists _, _, _, future. split; [exact Hrun|]. split; [reflexivity|].
  split; [apply lookup_insert_eq|]. split; [exact Hcount|].
  split.
  { rewrite !lookup_insert_ne by discriminate. rewrite lookup_insert_eq.
    by rewrite Hcount. }
  split.
  { rewrite !lookup_insert_ne by discriminate. by rewrite lookup_insert_eq. }
  rewrite Hcount. exact Hfuture.
Qed.

(** X10.  The health check reads the keys [total_pending], [success_rate]
    and [total_processing], which [get_queue_stats] does not write: for every
    database it answers 200 with status healthy, 0 pending, 0 processing, a
    success rate of 0 and no warning, and changes nothing. *)
Theorem queue_health_check_always_healthy (w : World) :
  ∃ w',
    queue_health_check w
    = (Ok (Health200 "healthy" (clock w 2%nat) (SInt 0) (SInt 0) (SInt 0) []), w')
    ∧ db w' = db w.
Proof.
  destruct (get_queue_stats_run w) as (avg & future & Hrun & _).
  unfold queue_health_check, try_except, mbind, M_bind.
  rewrite Hrun. unfold stats_get.
  rewrite !lookup_insert_ne by discriminate. rewrite lookup_empty.
  eexists. split; reflexivity.
Qed.

(** ** The message log *)

Lemma log_count_snoc (d : DB) (log : MessageLog.t) (m : Message.t)
    (logs : list MessageLog.t) :
  Z.of_nat (length (List.filter
                      (λ l, MessageLog.message_id l =? Message.id_message m)
                      (logs ++ [log])))
  = Z.of_nat (length (List.filter
                        (λ l, MessageLog.message_id l =? Message.id_message m) logs))
    + (if MessageLog.message_id log =? Message.id_message m then 1 else 0).
Proof.
  rewrite List.filter_app, length_app. simpl.
  destruct (MessageLog.message_id log =? Message.id_message m); simpl; lia.
Qed.

(** X11.  Every message carries the number of its log rows, and
    [log_message_event] keeps it so, whichever message and status it is
    called with. *)
Theorem log_message_event_keeps_attempts_consistent (message : Message.t)
    (status event_type : string) (provider_status : option string)
    (provider_response : option (gmap string PyVal))
    (error_code error_message external_message_id : option string)
    (cost : option Q) (processing_duration queue_item_id : option Z)
    (w w' : World) (log : MessageLog.t) (m' : Message.t) :
  attempts_consistent (db w) →
  log_message_event message status event_type provider_status provider_response
    error_code error_message external_message_id cost processing_duration
    queue_item_id w = (Ok (log, m'), w') →
  attempts_consistent (db w')
  ∧ Message.delivery_attempts m' = log_count (db w') m'.
Proof.
  intros Hinv Hrun. rewrite log_message_event_run in Hrun.
  injection Hrun as <- <- <-.
  set (n := log_count (db w) message + 1).
  set (m' := folded message status error_message external_message_id cost n
               (clock w 0%nat) (clock w 1%nat)).
  assert (Message.id_message m' = Message.id_message message) as Hid
    by apply folded_id.
  assert (Message.delivery_attempts m' = n) as Hatt.
  { unfold m', folded.
    repeat match goal with
           | |- context [if ?b then _ else _] => destruct b
           end; reflexivity. }
  assert (∀ m, log_count
                 (update_message m'
                    (set_message_logs
                       (message_logs (db w) ++
                        [MessageLog.mk (message_logs_id_seq (db w) + 1)
                           (Message.id_message message) queue_item_id status
                           provider_status (default ∅ provider_response) error_code
                           error_message n external_message_id cost
                           processing_duration
                           (clock w (if String.eqb status "delivered"
                                     then 2%nat else 1%nat))])
                       (set_message_logs_id_seq (message_logs_id_seq (db w) + 1)
                          (db w)))) m
               = log_count (db w) m
                 + (if Message.id_message message =? Message.id_message m
                    then 1 else 0)) as Hcount.
  { intros m. unfold log_count. simpl. apply (log_count_snoc (db w)). }
  split.
  - intros m Hm. rewrite Hcount. simpl in Hm.
    apply list_elem_of_fmap in Hm as (r & -> & Hr).
    destruct (Z.eqb_spec (Message.id_message r) (Message.id_message m')) as [E|E].
    + rewrite Hatt, Hid, Z.eqb_refl. unfold n, log_count. rewrite Hid. reflexivity.
    + rewrite (Hinv r Hr).
      destruct (Z.eqb_spec (Message.id_message message) (Message.id_message r));
        [congruence | lia].
  - rewrite Hcount, Hatt, Hid, Z.eqb_refl. unfold n, log_count.
    rewrite Hid. reflexivity.
Qed.

Lemma attempts_consistent_ex_message_world : attempts_consistent (db ex_message_world).
Proof.
  intros m Hm. apply list_elem_of_In in Hm. simpl in Hm.
  destruct Hm as [<- | []]. reflexivity.
Qed.

Lemma log_message_event_keeps_attempts_consistent_witness :
  attempts_consistent (db ex_message_world)
  ∧ ∃ log m' w',
      log_message_event ex_message "delivered" "delivery_update" None None
        None None None None None None ex_message_world = (Ok (log, m'), w')
      ∧ attempts_consistent (db w')
      ∧ Message.delivery_attempts m' = 3.
Proof.
  split; [exact attempts_consistent_ex_message_world|].
  pose proof (log_message_event_run ex_message "delivered" "delivery_update"
                None None None None None None None None ex_message_world) as Hrun.
  cbv zeta in Hrun.
  eexists _, _, _. split; [exact Hrun|].
  split; [|reflexivity].
  exact (proj1 (log_message_event_keeps_attempts_consistent
                  _ _ _ _ _ _ _ _ _ _ _ _ _ _ _
                  attempts_consistent_ex_message_world Hrun)).
Defined.

(** X12.  The log rows of every message are numbered 1, 2, 3, ... in the
    order they were written, and [log_message_event] keeps it so: the new
    row takes the next number of its message and the rows of the other
    messages are not renumbered. *)
Theorem log_message_event_keeps_logs_ranked (message : Message.t)
    (status event_type : string) (provider_status : option string)
    (provider_response : option (gmap string PyVal))
    (error_code error_message external_message_id : option string)
    (cost : option Q) (processing_duration queue_item_id : option Z)
    (w w' : World) (log : MessageLog.t) (m' : Message.t) :
  logs_ranked (db w) →
  log_message_event message status event_type provider_status provider_response
    error_code error_message external_message_id cost processing_duration
    queue_item_id w = (Ok (log, m'), w') →
  logs_ranked (db w')
  ∧ attempt_numbers (db w') (Message.id_message message)
    = (attempt_numbers (db w) (Message.id_message message)
       ++ [MessageLog.attempt_number log])%list
  ∧ ∀ i, i ≠ Message.id_message message →
         attempt_numbers (db w') i = attempt_numbers (db w) i.
Proof.
  intros Hinv Hrun. rewrite log_message_event_run in Hrun.
  injection Hrun as <- <- <-.
  assert (∀ i, (attempt_numbers (db w) i ++
                (if Message.id_message message =? i
                 then [log_count (db w) message + 1] else []))%list
               = attempt_numbers
                   (update_message
                      (folded message status error_message external_message_id cost
                         (log_count (db w) message + 1) (clock w 0%nat) (clock w 1%nat))
                      (set_message_logs
                         (message_logs (db w) ++
                          [MessageLog.mk (message_logs_id_seq (db w) + 1)
                             (Message.id_message message) queue_item_id status
                             provider_status (default ∅ provider_response) error_code
                             error_message (log_count (db w) message + 1)
                             external_message_id cost processing_duration
                             (clock w (if String.eqb status "delivered"
                                       then 2%nat else 1%nat))])
                         (set_message_logs_id_seq (message_logs_id_seq (db w) + 1)
                            (db w)))) i) as Hnum.
  { intros i. unfold attempt_numbers. simpl.
    rewrite List.filter_app, fmap_app. simpl.
    destruct (Message.id_message message =? i); reflexivity. }
  assert (log_count (db w) message
          = Z.of_nat (length (attempt_numbers (db w) (Message.id_message message))))
    as Hlen.
  { unfold log_count, attempt_numbers. by rewrite length_fmap. }
  split; [|split].
  - intros i. rewrite <- Hnum.
    destruct (Z.eqb_spec (Message.id_message message) i) as [<- | Hne].
    + rewrite length_app. simpl. rewrite Nat.add_1_r, seqZ_S.
      rewrite <- (Hinv (Message.id_message message)). rewrite Hlen.
      f_equal. f_equal. lia.
    + rewrite app_nil_r. apply Hinv.
  - rewrite <- Hnum, Z.eqb_refl. reflexivity.
  - intros i Hne. rewrite <- Hnum.
    destruct (Z.eqb_spec (Message.id_message message) i); [congruence|].
    apply app_nil_r.
Qed.

Lemma logs_ranked_ex_message_world : logs_ranked (db ex_message_world).
Proof.
  intros i. unfold attempt_numbers. cbn -[Z.eqb seqZ].
  destruct (1 =? i); reflexivity.
Qed.

Lemma log_message_event_keeps_logs_ranked_witness :
  logs_ranked (db ex_message_world)
  ∧ ∃ log m' w',
      log_message_event ex_message "delivered" "delivery_update" None None
        None None None None None None ex_message_world = (Ok (log, m'), w')
      ∧ logs_ranked (db w')
      ∧ attempt_numbers (db w') 1 = [1; 2; 3].
Proof.
  split; [exact logs_ranked_ex_message_world|].
  pose proof (log_message_event_run ex_message "delivered" "delivery_update"
                None None None None None None None None ex_message_world) as Hrun.
  cbv zeta in Hrun.
  eexists _, _, _. split; [exact Hrun|].
  split; [|reflexivity].
  exact (proj1 (log_message_event_keeps_logs_ranked
                  _ _ _ _ _ _ _ _ _ _ _ _ _ _ _
                  logs_ranked_ex_message_world Hrun)).
Defined.

(** ** create_message_record *)

Lemma fresh_rows_untouched (new_id : Z) (m' : Message.t) (rows : list Message.t) :
  (∀ m, m ∈ rows → Message.id_message m < new_id) →
  (λ r, if Message.id_message r =? new_id then m' else r) <$> rows = rows.
Proof.
  induction rows as [|r rows IH]; intros Hfresh; [reflexivity|].
  rewrite fmap_cons. rewrite IH by (intros m Hm; apply Hfresh; by right).
  destruct (Z.eqb_spec (Message.id_message r) new_id) as [E|_]; [|reflexivity].
  specialize (Hfresh r ltac:(by left)). lia.
Qed.

Lemma fresh_logs_none (new_id : Z) (logs : list MessageLog.t) :
  (∀ l, l ∈ logs → MessageLog.message_id l < new_id) →
  List.filter (λ l, MessageLog.message_id l =? new_id) logs = [].
Proof.
  induction logs as [|l logs IH]; intros Hfresh; [reflexivity|].
  simpl. rewrite IH by (intros x Hx; apply Hfresh; by right).
  destruct (Z.eqb_spec (MessageLog.message_id l) new_id) as [E|_]; [|reflexivity].
  specialize (Hfresh l ltac:(by left)). lia.
Qed.

Lemma create_message_record_run (settings : Settings) (item : SMSQueue.t)
    (initial_status : string) (ext : option string) (w : World) :
  let id_liste :=
    match List.find (λ c, bool_decide (Some (Campaign.id_campagne c)
                                       = SMSQueue.campaign_id item))
            (campaigns (db w)) with
    | Some campaign => head (Campaign.mailing_lists campaign)
    | None => None
    end in
  let new_id := messages_id_seq (db w) + 1 in
  let message :=
    Message.mk new_id (SMSQueue.message_content item) (clock w 0%nat) initial_status
      (_get_sender_identifier settings) ext 1 id_liste
      (SMSQueue.contact_id item) (SMSQueue.campaign_id item)
      (Some (SMSQueue.id item)) None None None None None in
  let w1 :=
    mkWorld (set_messages (messages (db w) ++ [message])
               (set_messages_id_seq new_id (db w)))
      (λ n, clock w (S n)) in
  create_message_record settings item initial_status ext w
  = (let (r, w') :=
       log_message_event message initial_status "message_created"
         None None None None None None None (Some (SMSQueue.id item)) w1 in
     match r with
     | Ok (_, m) => (Ok m, w')
     | Raise e => (Raise e, w')
     end).
Proof.
  unfold create_message_record, _get_mailing_list_id.
  unfold mbind, M_bind, now, get_db, put_db, mret, M_ret.
  cbv beta iota zeta. cbn [db clock].
  destruct (List.find _ (campaigns (db w))); cbv beta iota zeta; cbn [db clock].
  - destruct (log_message_event _ _ _ _ _ _ _ _ _ _ _ _) as [[[l m]|e] w']; reflexivity.
  - destruct (log_message_event _ _ _ _ _ _ _ _ _ _ _ _) as [[[l m]|e] w']; reflexivity.
Qed.

(** X13.  The first dispatch of a queue item.  When the serial column of
    messages is ahead of every stored message and log row,
    [create_message_record] appends one message with the next id, bound to the
    queue item, with the given status and [delivery_attempts] 1, and one log
    row for it, numbered 1; the stored messages and the log rows of the other
    messages are as before, and the serial column is ahead again. *)
Theorem create_message_record_first_log (settings : Settings) (item : SMSQueue.t)
    (initial_status : string) (ext : option string) (w : World) :
  sequences_fresh (db w) →
  ∃ m w',
    create_message_record settings item initial_status ext w = (Ok m, w')
    ∧ Message.id_message m = messages_id_seq (db w) + 1
    ∧ messages (db w') = (messages (db w) ++ [m])%list
    ∧ Message.statut_livraison m = initial_status
    ∧ Message.delivery_attempts m = 1
    ∧ Message.queue_item_id m = Some (SMSQueue.id item)
    ∧ Message.contenu m = SMSQueue.message_content item
    ∧ Message.id_contact m = SMSQueue.contact_id item
    ∧ Message.external_message_id m = ext
    ∧ Message.date_envoi m = clock w 0%nat
    ∧ attempt_numbers (db w') (Message.id_message m) = [1]
    ∧ (∀ i, i ≠ Message.id_message m →
            attempt_numbers (db w') i = attempt_numbers (db w) i)
    ∧ sequences_fresh (db w').
Proof.
  intros [Hmsgs Hlogs].
  rewrite create_message_record_run. cbv zeta.
  set (new_id := messages_id_seq (db w) + 1).
  set (message := Message.mk new_id _ _ _ _ _ _ _ _ _ _ _ _ _ _ _).
  rewrite log_message_event_run. cbv zeta.
  assert (log_count
            (set_messages (messages (db w) ++ [message])
               (set_messages_id_seq new_id (db w))) message = 0) as Hzero.
  { unfold log_count. cbn [message_logs set_messages set_messages_id_seq].
    change (Message.id_message message) with new_id.
    rewrite fresh_logs_none; [reflexivity|].
    intros l Hl. specialize (Hlogs l Hl). unfold new_id. lia. }
  cbn [db clock]. rewrite Hzero. change (0 + 1) with 1.
  set (m' := folded message initial_status None None None 1 _ _).
  assert (Message.id_message m' = new_id
          ∧ Message.statut_livraison m' = initial_status
          ∧ Message.delivery_attempts m' = 1
          ∧ Message.queue_item_id m' = Some (SMSQueue.id item)
          ∧ Message.contenu m' = SMSQueue.message_content item
          ∧ Message.id_contact m' = SMSQueue.contact_id item
          ∧ Message.external_message_id m' = ext
          ∧ Message.date_envoi m' = clock w 0%nat) as Hfields.
  { unfold m', folded. cbn [truthy truthy_option].
    destruct (str_in initial_status _); [|repeat split].
    destruct (String.eqb initial_status "delivered"); repeat split. }
  destruct Hfields as (Hid' & Hst & Hatt & Hq & Hc & Hcontact & Hext & Hdate).
  eexists _, _. split; [reflexivity|].
  cbn [db clock messages message_logs messages_id_seq set_messages
       set_messages_id_seq set_message_logs set_message_logs_id_seq update_message].
  split; [exact Hid'|].
  split.
  { rewrite fmap_app, Hid'. rewrite fresh_rows_untouched.
    - simpl. rewrite Z.eqb_refl. reflexivity.
    - intros m Hm. specialize (Hmsgs m Hm). unfold new_id. lia. }
  split; [exact Hst|]. split; [exact Hatt|]. split; [exact Hq|].
  split; [exact Hc|]. split; [exact Hcontact|]. split; [exact Hext|].
  split; [exact Hdate|].
  rewrite Hid'.
  split.
  { unfold attempt_numbers.
    cbn [message_logs set_messages set_messages_id_seq set_message_logs
         set_message_logs_id_seq update_message].
    rewrite List.filter_app, fresh_logs_none.
    - simpl. rewrite Z.eqb_refl. reflexivity.
    - intros l Hl. specialize (Hlogs l Hl). unfold new_id. lia. }
  split.
  { intros i Hi. unfold attempt_numbers.
    cbn [message_logs set_messages set_messages_id_seq set_message_logs
         set_message_logs_id_seq update_message].
    rewrite List.filter_app. simpl.
    destruct (Z.eqb_spec new_id i); [congruence|]. by rewrite app_nil_r. }
  split.
  - intros m Hm.
    cbn [messages messages_id_seq message_logs set_messages set_messages_id_seq
         set_message_logs set_message_logs_id_seq update_message] in *.
    apply list_elem_of_fmap in Hm as (r & -> & Hr).
    apply elem_of_app in Hr as [Hr | Hr].
    + specialize (Hmsgs r Hr).
      destruct (Message.id_message r =? Message.id_message m');
        [rewrite Hid' | ]; unfold new_id; lia.
    + apply list_elem_of_singleton in Hr as ->.
      change (Message.id_message message) with new_id.
      rewrite Hid', Z.eqb_refl, Hid'. lia.
  - intros l Hl.
    cbn [messages messages_id_seq message_logs set_messages set_messages_id_seq
         set_message_logs set_message_logs_id_seq update_message] in *.
    apply elem_of_app in Hl as [Hl | Hl].
    + specialize (Hlogs l Hl). unfold new_id. lia.
    + apply list_elem_of_singleton in Hl as ->. simpl. lia.
Qed.

Lemma sequences_fresh_ex_message_world : sequences_fresh (db ex_message_world).
Proof.
  split.
  - intros m Hm. apply list_elem_of_In in Hm. simpl in Hm.
    destruct Hm as [<- | []]. simpl. lia.
  - intros l Hl. apply list_elem_of_In in Hl. simpl in Hl.
    destruct Hl as [<- | [<- | []]]; simpl; lia.
Qed.

Lemma create_message_record_first_log_witness :
  sequences_fresh (db ex_message_world)
  ∧ ∃ m w',
      create_message_record ex_settings ex_item "processing" None ex_message_world
        = (Ok m, w')
      ∧ Message.id_message m = 2
      ∧ Message.delivery_attempts m = 1
      ∧ attempt_numbers (db w') 2 = [1].
Proof.
  split; [exact sequences_fresh_ex_message_world|].
  destruct (create_message_record_first_log ex_settings ex_item "processing" None
              ex_message_world sequences_fresh_ex_message_world)
    as (m & w' & Hrun & Hid & _ & _ & Hatt & _ & _ & _ & _ & _ & Hnum & _).
  exists m, w'. split; [exact Hrun|]. split; [exact Hid|]. split; [exact Hatt|].
  rewrite Hid in Hnum. exact Hnum.
Defined.

(** ** Receipts *)

(** [update_delivery_status] is one lookup and, on a hit, one
    [log_message_event]. *)
Lemma update_delivery_status_run (float_of_string : string → option Q)
    (ext provider_status : string) (provider_response : gmap string PyVal)
    (w : World) :
  match List.find (λ m, bool_decide (Message.external_message_id m = Some ext))
          (messages (db w)) with
  | None =>
      update_delivery_status float_of_string ext provider_status provider_response w
      = (Ok false, w)
  | Some message =>
      ∃ cost log m' w',
        log_message_event message (_map_provider_status provider_status)
          "delivery_update" (Some provider_status) (Some provider_response)
          (py_text (dict_get provider_response "error_code"))
          (py_text (dict_get provider_response "error_message")) None cost None None w
        = (Ok (log, m'), w')
        ∧ update_delivery_status float_of_string ext provider_status
            provider_response w = (Ok true, w')
  end.
Proof.
  destruct (List.find _ _) as [message|] eqn:Hfind.
  - destruct (extract_cost_returns float_of_string provider_response w) as [c Hc].
    eexists c, _, _, _. split; [apply log_message_event_run|].
    unfold update_delivery_status, mbind, M_bind, get_db, mret, M_ret.
    cbv beta iota. rewrite Hfind, Hc. cbv beta iota.
    rewrite log_message_event_run. reflexivity.
  - unfold update_delivery_status, mbind, M_bind, get_db, mret, M_ret.
    cbv beta iota. rewrite Hfind. reflexivity.
Qed.

(** X14.  What [update_delivery_status] returns.  For an external id that no
    stored message carries it returns false and changes nothing.  It returns
    false in no other case, and when it returns true it has appended exactly
    one log row, for the first stored message with that id, with the mapped
    status and the provider status as given, and has left the number of
    messages and the queue as they were. *)
Theorem update_delivery_status_returns (float_of_string : string → option Q)
    (ext provider_status : string) (provider_response : gmap string PyVal)
    (w w' : World) (r : Result bool) :
  update_delivery_status float_of_string ext provider_status provider_response w
  = (r, w') →
  (List.find (λ m, bool_decide (Message.external_message_id m = Some ext))
     (messages (db w)) = None
   → r = Ok false ∧ w' = w)
  ∧ (r = Ok false →
     List.find (λ m, bool_decide (Message.external_message_id m = Some ext))
       (messages (db w)) = None)
  ∧ (r = Ok true →
     ∃ message log,
       List.find (λ m, bool_decide (Message.external_message_id m = Some ext))
         (messages (db w)) = Some message
       ∧ message_logs (db w') = (message_logs (db w) ++ [log])%list
       ∧ MessageLog.message_id log = Message.id_message message
       ∧ MessageLog.status log = _map_provider_status provider_status
       ∧ MessageLog.provider_status log = Some provider_status
       ∧ MessageLog.provider_response log = provider_response
       ∧ length (messages (db w')) = length (messages (db w))
       ∧ sms_queue (db w') = sms_queue (db w)).
Proof.
  intros Hresult.
  pose proof (update_delivery_status_run float_of_string ext provider_status
                provider_response w) as Hrun.
  destruct (List.find _ _) as [message|].
  - destruct Hrun as (cost & log & m' & w1 & Hlog & Hrun).
    rewrite Hrun in Hresult. injection Hresult as <- <-.
    split; [discriminate|]. split; [discriminate|]. intros _.
    exists message, log. split; [reflexivity|].
    rewrite log_message_event_run in Hlog. injection Hlog as <- _ <-.
    cbn [db message_logs messages sms_queue update_message set_messages
         set_message_logs set_message_logs_id_seq MessageLog.message_id
         MessageLog.status MessageLog.provider_status
         MessageLog.provider_response].
    split; [reflexivity|]. split; [reflexivity|]. split; [reflexivity|].
    split; [reflexivity|]. split; [reflexivity|].
    rewrite length_fmap. split; reflexivity.
  - rewrite Hrun in Hresult. injection Hresult as <- <-.
    split; [auto|]. split; [reflexivity | discriminate].
Qed.

(** A delivered receipt for the stored message SM1. *)
Lemma update_delivery_status_returns_witness :
  ∃ message log w',
    update_delivery_status (λ _, None) "SM1" "delivered" ∅ ex_message_world
    = (Ok true, w')
    ∧ List.find (λ m, bool_decide (Message.external_message_id m = Some "SM1"))
        (messages (db ex_message_world)) = Some message
    ∧ message_logs (db w') = (message_logs (db ex_message_world) ++ [log])%list
    ∧ MessageLog.status log = "delivered".
Proof.
  destruct (update_delivery_status_run (λ _, None) "SM1" "delivered" ∅
              ex_message_world) as (cost & log0 & m' & w' & _ & Hrun).
  destruct (update_delivery_status_returns (λ _, None) "SM1" "delivered" ∅
              ex_message_world w' (Ok true) Hrun)
    as (_ & _ & Htrue).
  destruct (Htrue eq_refl) as (message & log & Hfind & Hlogs & _ & Hst & _).
  exists message, log, w'.
  split; [exact Hrun|]. split; [exact Hfind|]. split; [exact Hlogs | exact Hst].
Defined.

(** X15.  Mapping a provider status is idempotent, and the status the send
    path computes is always sent, delivered or failed, each of which the
    receipt mapping leaves as it is. *)
Theorem provider_status_mapping_idempotent (s : string) :
  _map_provider_status (_map_provider_status s) = _map_provider_status s
  ∧ str_in (send_internal_status s) ["sent"; "delivered"; "failed"] = true
  ∧ _map_provider_status (send_internal_status s) = send_internal_status s.
Proof.
  split; [|split].
  - unfold _map_provider_status at 2 3.
    destruct (str_in (lower s)
                ["queued"; "sending"; "sent"; "delivered"; "failed"; "undelivered";
                 "read"]) eqn:E.
    + unfold str_in in E. simpl in E.
      repeat (apply orb_true_iff in E as [E|E]); try discriminate;
        apply String.eqb_eq in E; rewrite E; reflexivity.
    + rewrite (twilio_mapping_other _ E). simpl.
      unfold _map_provider_status. rewrite (twilio_mapping_other _ E). reflexivity.
  - unfold send_internal_status.
    repeat match goal with
           | |- context [if ?b then _ else _] => destruct b
           end; reflexivity.
  - unfold send_internal_status.
    repeat match goal with
           | |- context [if ?b then _ else _] => destruct b
           end; reflexivity.
Qed.

(** X16.  The status webhook of a message, where it writes nothing.  Without
    a status field the answer is 400, Missing status.  With one, and no
    stored message for the posted [MessageSid] (or [SmsSid], or else the id
    internal_<message_id>), the answer is 404, Message not found.  In both
    cases nothing changes.  When a [MessageSid] or [SmsSid] is posted, the
    [message_id] of the path plays no part at all: the same form gives the
    same run under every [message_id]. *)
Theorem message_status_webhook_answers (float_of_string : string → option Q)
    (message_id : Z) (form : gmap string string) (w : World) :
  let sid := py_or (form !! "MessageSid") (form !! "SmsSid") in
  let status := py_or (form !! "MessageStatus") (form !! "SmsStatus") in
  let ext := if truthy sid then default "" sid
             else "internal_" +:+ pretty message_id in
  (truthy status = false →
   message_status_webhook float_of_string message_id form w
   = (Ok ("Missing status", 400), w))
  ∧ (truthy status = true →
     List.find (λ m, bool_decide (Message.external_message_id m = Some ext))
       (messages (db w)) = None →
     message_status_webhook float_of_string message_id form w
     = (Ok ("Message not found", 404), w))
  ∧ (truthy sid = true →
     ∀ message_id',
       message_status_webhook float_of_string message_id' form w
       = message_status_webhook float_of_string message_id form w).
Proof.
  intros sid status ext.
  unfold message_status_webhook, try_except. fold sid status. fold ext.
  split; [|split].
  - intros ->. reflexivity.
  - intros -> Hfind. cbn [negb]. unfold mbind, M_bind.
    pose proof (update_delivery_status_run float_of_string ext (default "" status)
                  (VStr <$> form) w) as Hrun.
    rewrite Hfind in Hrun. rewrite Hrun. reflexivity.
  - intros Hsid message_id'. unfold ext. rewrite Hsid. reflexivity.
Qed.

(** A receipt for an unknown message, posted under the path of message 7. *)
Lemma message_status_webhook_answers_witness :
  message_status_webhook (λ _, None) 7 (ex_form "SM404" "delivered") ex_message_world
  = (Ok ("Message not found", 404), ex_message_world)
  ∧ ∀ message_id',
      message_status_webhook (λ _, None) message_id' (ex_form "SM404" "delivered")
        ex_message_world
      = message_status_webhook (λ _, None) 7 (ex_form "SM404" "delivered")
          ex_message_world.
Proof.
  destruct (message_status_webhook_answers (λ _, None) 7
              (ex_form "SM404" "delivered") ex_message_world)
    as (_ & Hmissing & Hpath).
  split.
  - apply Hmissing; reflexivity.
  - apply Hpath. reflexivity.
Defined.

(** ** The timeline *)

Global Instance log_created_le_total : Total log_created_le.
Proof. intros a b. unfold log_created_le. lia. Qed.

Global Instance log_created_le_trans : Transitive log_created_le.
Proof. intros a b c. unfold log_created_le. lia. Qed.

(** X17.  [get_message_timeline] changes nothing and returns one event per
    log row of the message, each the projection of its row, in ascending order
    of their timestamps; an event shows a cost only when the cost of the row
    is not zero. *)
Theorem get_message_timeline_spec (message_id : Z) (w : World) :
  ∃ events,
    get_message_timeline message_id w = (Ok events, w)
    ∧ events ≡ₚ timeline_event
                  <$> List.filter (λ l, MessageLog.message_id l =? message_id)
                        (message_logs (db w))
    ∧ StronglySorted
        (λ a b, TimelineEvent.timestamp a ≤ TimelineEvent.timestamp b) events
    ∧ (∀ e x, e ∈ events → TimelineEvent.cost e = Some x → ¬ (x == 0)%Q).
Proof.
  unfold get_message_timeline, mbind, M_bind, get_db, mret, M_ret.
  eexists. split; [reflexivity|].
  split; [by rewrite merge_sort_Permutation|].
  split.
  - apply (StronglySorted_fmap _ log_created_le); [auto|].
    apply StronglySorted_merge_sort; apply _.
  - intros e x He Hcost.
    apply list_elem_of_fmap in He as (l & -> & _).
    unfold timeline_event in Hcost. simpl in Hcost.
    destruct (truthy (MessageLog.cost l)) eqn:E; [|discriminate].
    apply truthy_cost in E as (y & Hy & Hne). congruence.
Qed.

(** ** Tasks *)

(** [cleanup_old_records] has the parameter [days_to_keep]; a call with the
    keyword [days] is refused when the arguments are bound, before the body
    runs. *)
Lemma call_cleanup_old_records_days (v : PyObj) (w : World) :
  call_cleanup_old_records [("days", v)] w
  = (Raise (TypeError
              "SMSQueueService.cleanup_old_records() got an unexpected keyword argument 'days'"),
     w).
Proof. reflexivity. Qed.

(** X18.  The cleanup task deletes nothing.  [cleanup_old_messages] passes
    the retention as [days], a keyword [cleanup_old_records] does not have:
    for every database and every retention setting the task returns status
    error and leaves the world as it was. *)
Theorem cleanup_old_messages_deletes_nothing (retention : option PyVal) (w : World) :
  cleanup_old_messages retention w
  = (Ok (<["status" := VStr "error"]>
         (<["message" :=
              VStr "SMSQueueService.cleanup_old_records() got an unexpected keyword argument 'days'"]>
            ∅)),
     w).
Proof.
  unfold cleanup_old_messages, try_except. unfold mbind at 1. unfold M_bind.
  rewrite call_cleanup_old_records_days. reflexivity.
Qed.

Lemma replace_hour_of_yesterday (t t_local : Z) :
  replace_hour t (hour_of t_local - 24) = Raise (ValueError "hour must be in 0..23").
Proof.
  unfold replace_hour.
  assert (0 ≤ hour_of t_local < 24) as H
    by (unfold hour_of; apply Z.mod_pos_bound; lia).
  destruct (Z.leb_spec 0 (hour_of t_local - 24)); [lia | reflexivity].
Qed.

(** X19.  The status poller updates nothing.  [check_delivery_status] builds
    its cutoff with [replace(hour = now.hour - 24)], an hour below 0: for
    every database, clock, time zone and provider the task returns status
    error with the message of that [ValueError], calls no provider and
    changes no row. *)
Theorem check_delivery_status_updates_nothing (float_of_string : string → option Q)
    (get_message_status : string → Result (gmap string PyVal))
    (local_utc_offset : Z) (w : World) :
  ∃ w',
    check_delivery_status float_of_string get_message_status local_utc_offset w
    = (Ok (<["status" := VStr "error"]>
           (<["message" := VStr "hour must be in 0..23"]> ∅)), w')
    ∧ db w' = db w.
Proof.
  unfold check_delivery_status, try_except.
  unfold mbind at 1 2 3. unfold M_bind, now, lift.
  rewrite replace_hour_of_yesterday.
  eexists. split; reflexivity.
Qed.

(** ** The dispatcher *)

Lemma batch_size_at_least_one (settings : Settings)
    (int_of_string : string → option Z) :
  1 ≤ batch_size settings int_of_string.
Proof.
  unfold batch_size, DEFAULT_BATCH_SIZE, py_int.
  destruct (SMS_RATE_LIMIT settings) as [[| n | s]|]; try (simpl; lia).
  - destruct (truthy (VInt n)); [|lia].
    destruct (Z.ltb_spec 0 n); lia.
  - destruct (truthy (VStr s)); [|lia].
    destruct (int_of_string s) as [n|]; [|lia].
    destruct (Z.ltb_spec 0 n); lia.
Qed.

(** X20.  The batch size is at least 1 whatever the settings hold: it is the
    configured limit when that is a positive integer and 100 when the limit
    is absent, empty, zero, negative or not a number. *)
Theorem batch_size_positive (settings : Settings) (int_of_string : string → option Z) :
  1 ≤ batch_size settings int_of_string
  ∧ (∀ n, SMS_RATE_LIMIT settings = Some (VInt n) →
          batch_size settings int_of_string = (if 0 <? n then n else 100))
  ∧ (∀ s, SMS_RATE_LIMIT settings = Some (VStr s) →
          batch_size settings int_of_string
          = match int_of_string s with
            | Some n => if truthy s && (0 <? n) then n else 100
            | None => 100
            end)
  ∧ (SMS_RATE_LIMIT settings = None ∨ SMS_RATE_LIMIT settings = Some VNone →
     batch_size settings int_of_string = 100).
Proof.
  split; [apply batch_size_at_least_one|].
  unfold batch_size, DEFAULT_BATCH_SIZE, py_int.
  split; [|split].
  - intros n ->. change (truthy (VInt n)) with (negb (n =? 0)).
    destruct (Z.eqb_spec n 0) as [-> | Hne]; simpl; reflexivity.
  - intros s ->. change (truthy (VStr s)) with (truthy s).
    destruct (truthy s), (int_of_string s); reflexivity.
  - intros [-> | ->]; reflexivity.
Qed.

Lemma process_items_first_raises (settings : Settings)
    (float_of_string : string → option Q)
    (send_sms : string → string → string → Result (gmap string PyVal))
    (item : SMSQueue.t) (rest : list SMSQueue.t) (n : Z) (counts : Z * Z) (w : World) :
  SMSQueue.id item ≠ 0 →
  ∃ w', process_items settings float_of_string send_sms (item :: rest) n counts w
        = (Raise (TypeError
             "SMSQueueService.mark_failed() got an unexpected keyword argument 'queue_item_id'"),
           w')
        ∧ db w' = db w.
Proof.
  intros Hid. simpl. unfold mbind, M_bind.
  destruct (process_item_raises settings float_of_string send_sms item counts w Hid)
    as (w' & -> & Hdb).
  exists w'. split; [reflexivity | exact Hdb].
Qed.

(** X21.  A dispatcher pass changes no row.  When no queue item has the id
    0, [process_sms_batch] leaves the database as it was, for every carrier
    and every setting: with nothing to lease it reports success with 0
    processed, and with something to lease it reports an error; it never
    reports a sent message. *)
Theorem process_sms_batch_changes_nothing (settings : Settings)
    (float_of_string : string → option Q) (int_of_string : string → option Z)
    (send_sms : string → string → string → Result (gmap string PyVal)) (w : World) :
  (∀ q, q ∈ sms_queue (db w) → SMSQueue.id q ≠ 0) →
  ∃ items w0 result w',
    get_pending_messages (batch_size settings int_of_string) true w = (Ok items, w0)
    ∧ process_sms_batch settings float_of_string int_of_string send_sms w
      = (Ok result, w')
    ∧ db w' = db w
    ∧ result !! "sent" = None
    ∧ (items = [] →
       result = <["status" := VStr "success"]> (<["processed" := VInt 0]> ∅))
    ∧ (items ≠ [] → result !! "status" = Some (VStr "error")).
Proof.
  intros Hids.
  pose proof (batch_size_at_least_one settings int_of_string) as Hpos.
  assert (∃ items w0,
            get_pending_messages (batch_size settings int_of_string) true w
            = (Ok items, w0)) as (items & w0 & Hlease).
  { unfold get_pending_messages. run_M.
    destruct (Z.ltb_spec (batch_size settings int_of_string) 0); [lia|]. eauto. }
  destruct (leased_are_pending_rows _ _ _ _ _ Hlease) as [Hdb Hrows].
  exists items, w0.
  unfold process_sms_batch, try_except. unfold mbind at 1. unfold M_bind.
  rewrite Hlease.
  destruct items as [|item rest].
  - eexists _, _. split; [reflexivity|]. split; [reflexivity|].
    split; [exact Hdb|]. split; [reflexivity|].
    split; [reflexivity | congruence].
  - cbn [truthy truthy_list negb]. unfold mbind at 1. unfold M_bind.
    destruct (process_items_first_raises settings float_of_string send_sms
                item rest 0 (0, 0) w0) as (w' & -> & Hdb').
    { apply Hids, Hrows. by left. }
    eexists _, _. split; [reflexivity|]. split; [reflexivity|].
    split; [congruence|]. split; [reflexivity|].
    split; [discriminate | reflexivity].
Qed.

Lemma process_sms_batch_changes_nothing_witness :
  (∀ q, q ∈ sms_queue (db ex_queue_world) → SMSQueue.id q ≠ 0)
  ∧ ∃ result w',
      process_sms_batch ex_settings (λ _, None) (λ _, None) ex_send_sms ex_queue_world
      = (Ok result, w')
      ∧ db w' = db ex_queue_world
      ∧ result !! "sent" = None.
Proof.
  assert (∀ q, q ∈ sms_queue (db ex_queue_world) → SMSQueue.id q ≠ 0) as Hids.
  { intros q Hq. apply list_elem_of_In in Hq. simpl in Hq.
    destruct Hq as [<- | [<- | [<- | [<- | [<- | []]]]]]; discriminate. }
  split; [exact Hids|].
  destruct (process_sms_batch_changes_nothing ex_settings (λ _, None) (λ _, None)
              ex_send_sms ex_queue_world Hids)
    as (items & w0 & result & w' & _ & Hrun & Hdb & Hsent & _).
  exists result, w'. split; [exact Hrun|]. split; [exact Hdb | exact Hsent].
Defined.

(** ** Campaign statistics *)

Lemma percentage_bounds (c n : Z) :
  0 ≤ c ≤ n → 0 < n →
  (0 <= inject_Z c / inject_Z n * 100)%Q ∧ (inject_Z c / inject_Z n * 100 <= 100)%Q.
Proof.
  intros Hc Hn. destruct n as [|p|p]; try lia.
  unfold Qle, Qdiv, Qmult, Qinv, inject_Z. simpl. split; nia.
Qed.

(** X22.  The rates of a campaign are percentages.  For every campaign and
    database [get_campaign_message_stats] returns without raising and changes
    nothing; [total_messages] is the number of messages of the campaign;
    [status_breakdown.get(s, 0)] is the number of them whose final status, or
    else delivery status, is [s]; and [delivery_rate] and [retry_rate] lie
    between 0 and 100. *)
Theorem get_campaign_message_stats_rates (campaign_id : Z) (w : World) :
  ∃ stats,
    get_campaign_message_stats campaign_id w = (Ok stats, w)
    ∧ total_messages stats
      = Z.of_nat (length (List.filter
                            (λ m, bool_decide (Message.id_campagne m = Some campaign_id))
                            (messages (db w))))
    ∧ (∀ s, default 0 (status_breakdown stats !! s)
            = Z.of_nat
                (length
                   (List.filter
                      (λ m, String.eqb
                              (if truthy (Message.final_status m)
                               then default "" (Message.final_status m)
                               else Message.statut_livraison m) s)
                      (List.filter
                         (λ m, bool_decide (Message.id_campagne m = Some campaign_id))
                         (messages (db w))))))
    ∧ (0 <= delivery_rate stats)%Q ∧ (delivery_rate stats <= 100)%Q
    ∧ (0 <= retry_rate stats)%Q ∧ (retry_rate stats <= 100)%Q.
Proof.
  unfold get_campaign_message_stats, mbind, M_bind, mret, M_ret, get_db.
  cbv beta iota zeta.
  remember (List.filter (λ m, bool_decide (Message.id_campagne m = Some campaign_id))
              (messages (db w))) as msgs eqn:Hmsgs.
  clear Hmsgs.
  assert (∀ s,
            default 0
              (fold_left
                 (λ acc m,
                    count_key acc
                      (if truthy (Message.final_status m)
                       then default "" (Message.final_status m)
                       else Message.statut_livraison m)) msgs ∅ !! s)
            = Z.of_nat
                (length
                   (List.filter
                      (λ m, String.eqb
                              (if truthy (Message.final_status m)
                               then default "" (Message.final_status m)
                               else Message.statut_livraison m) s) msgs))) as Hhist.
  { intros s.
    rewrite (histogram_lookup
               (λ m, if truthy (Message.final_status m)
                     then default "" (Message.final_status m)
                     else Message.statut_livraison m)).
    rewrite lookup_empty. simpl. lia. }
  destruct msgs as [|m l] eqn:Hm.
  { eexists. split; [reflexivity|].
    cbn [total_messages status_breakdown delivery_rate retry_rate].
    split; [reflexivity|]. split; [intros s; by rewrite lookup_empty|].
    repeat split; unfold Qle; simpl; lia. }
  rewrite <- Hm in *.
  assert (msgs ≠ []) as Hne by (rewrite Hm; discriminate).
  assert (0 < Z.of_nat (length msgs)) as Hpos by (rewrite Hm; simpl; lia).
  assert (truthy msgs = true) as -> by (rewrite Hm; reflexivity).
  cbn [negb].
  rewrite !py_div_nonzero by (apply inject_nat_nonzero; exact Hne).
  assert (∃ average,
            (if truthy (List.filter (λ m, is_set (Message.delivery_timestamp m)) msgs)
             then
               py_div
                 (sumQ
                    ((λ m, Qdiv (inject_Z (default 0 (Message.delivery_timestamp m)
                                           - Message.date_envoi m))
                                (inject_Z one_second))
                     <$> List.filter (λ m, is_set (Message.delivery_timestamp m)) msgs))
                 (inject_Z
                    (Z.of_nat
                       (length (List.filter
                                  (λ m, is_set (Message.delivery_timestamp m)) msgs))))
             else λ w0 : World, (Ok 0%Q, w0)) w = (Ok average, w)) as [average ->].
  { destruct (List.filter (λ m, is_set (Message.delivery_timestamp m)) msgs)
      as [|dm dms] eqn:Hdel.
    - eexists. reflexivity.
    - cbn [truthy truthy_list].
      rewrite py_div_nonzero by (apply inject_nat_nonzero; discriminate).
      eexists. reflexivity. }
  cbv beta iota.
  rewrite ?py_div_nonzero by (apply inject_nat_nonzero; exact Hne).
  eexists. split; [reflexivity|].
  cbn [total_messages status_breakdown delivery_rate retry_rate].
  split; [reflexivity|]. split; [exact Hhist|].
  assert (∀ f : Message.t → bool,
            0 ≤ Z.of_nat (length (List.filter f msgs)) ≤ Z.of_nat (length msgs)) as Hle.
  { intros f. pose proof (List.filter_length_le f msgs). lia. }
  rewrite Hhist.
  split; [apply percentage_bounds; [apply Hle | exact Hpos]|].
  split; [apply percentage_bounds; [apply Hle | exact Hpos]|].
  apply percentage_bounds; [apply Hle | exact Hpos].
Qed.

(** ** The phone validator *)

Lemma list_ascii_of_remove_char (c : ascii) (s : string) :
  list_ascii_of_string (remove_char c s)
  = List.filter (λ x, negb (Ascii.eqb x c)) (list_ascii_of_string s).
Proof. unfold remove_char. apply list_ascii_of_string_of_list_ascii. Qed.

Lemma cleaned_separator_free (s : string) :
  separator_free (remove_char "-" (remove_char "." (remove_char " " s))).
Proof.
  intros c Hc. rewrite !list_ascii_of_remove_char in Hc.
  apply filter_In in Hc as [Hc H1]. apply filter_In in Hc as [Hc H2].
  apply filter_In in Hc as [_ H3].
  apply negb_true_iff, Ascii.eqb_neq in H1, H2, H3. auto.
Qed.

(** X23.  The library is asked about the digits only.  The outcome of
    [validate_and_format_phone_number] depends on the parser of the library
    only through its answers on strings without space, dot or dash: two
    parsers that agree on those give the same result for every phone number,
    however it is punctuated. *)
Theorem validate_ignores_separators {PhoneNumber : Type}
    (parse parse' : string → option string → PhoneNumber + string)
    (is_valid : PhoneNumber → bool) (format : PhoneNumber → string)
    (phone_number : string) (country_code : option string) :
  (∀ x cc, separator_free x → parse x cc = parse' x cc) →
  validate_and_format_phone_number parse is_valid format phone_number country_code
  = validate_and_format_phone_number parse' is_valid format phone_number country_code.
Proof.
  intros Hagree. unfold validate_and_format_phone_number.
  destruct (_ || _); [reflexivity|].
  rewrite Hagree by apply cleaned_separator_free. reflexivity.
Qed.

(** A parser that rejects anything with a dash agrees, on strings without
    separators, with the parser that accepts everything. *)
Lemma validate_ignores_separators_witness :
  let picky (x : string) (cc : option string) : string + string :=
    if existsb (Ascii.eqb "-") (list_ascii_of_string x)
    then inr "dash" else inl x in
  (∀ x cc, separator_free x → picky x cc = ex_parse x cc)
  ∧ validate_and_format_phone_number picky ex_is_valid ex_format
      " +33 6-12.34 56 78 " (Some "FR") = Ok "+33612345678".
Proof.
  intros picky.
  assert (∀ x cc, separator_free x → picky x cc = ex_parse x cc) as Hagree.
  { intros x cc Hfree. unfold picky, ex_parse.
    destruct (existsb _ _) eqn:E; [|reflexivity].
    apply existsb_exists in E as (c & Hc & Heq).
    apply Ascii.eqb_eq in Heq. subst c.
    destruct (Hfree _ Hc) as (_ & _ & Hdash). congruence. }
  split; [exact Hagree|].
  rewrite (validate_ignores_separators picky ex_parse ex_is_valid ex_format
             " +33 6-12.34 56 78 " (Some "FR") Hagree).
  reflexivity.
Defined.

(** ** Sent is final *)


